(** * Noko API client: request shapes and parameter normalisation

    A shallow embedding of [noko_client/client.py] (class [NokoClient]).
    Every public method builds a URI, picks an HTTP verb, normalises its
    arguments and hands one request to [fetch_json], the transport method
    inherited from [BaseClient].

    - Python values are the inductive [pyval]; dictionaries with string keys
      (keyword arguments, query parameters, JSON bodies) are [gmap string pyval].
    - Exceptions are the [Raise] branch of [result]; a method is a value of
      [io A]: the requests it handed to the transport, in order, and its outcome.
    - [noko_client.base_client], [noko_client.schemas.utilities] and the
      pydantic schema modules are imported by the client; they enter the
      embedding as the interfaces [BaseClient], [Utilities] and [Schemas],
      and the client is written once, against those interfaces. *)

From Stdlib Require Import ZArith String Ascii List DecimalString DecimalZ Lia.
From stdpp Require Import gmap strings.

Local Open Scope Z_scope.

(** String concatenation computes under [simpl] in this file. *)
#[local] Arguments String.append _ _ : simpl nomatch.

(** ** Python values *)

Record date := { year : Z; month : Z; day : Z }.

Record datetime := { dt_date : date; hour : Z; minute : Z; second : Z }.

#[warnings="-register-all"]
Inductive pyval :=
| PyNone
| PyBool (b : bool)
| PyInt (z : Z)
| PyStr (s : string)
| PyList (l : list pyval)
| PyDate (d : date)
| PyDatetime (dt : datetime).

(** [isinstance(v, list)] *)
Definition is_list (v : pyval) : bool :=
  match v with PyList _ => true | _ => false end.

(** ** [str()] and [repr()], as used by f-string interpolation *)

Definition str_of_Z (z : Z) : string := NilZero.string_of_int (Z.to_int z).

Definition digit_char (d : Z) : ascii := ascii_of_N (48 + Z.to_N (d mod 10)).

Definition pad2 (n : Z) : string :=
  String (digit_char (n / 10)) (String (digit_char n) "").

Definition pad4 (n : Z) : string :=
  String (digit_char (n / 1000)) (String (digit_char (n / 100)) (pad2 n)).

(** [date.isoformat()], which is also [str(date)] and [strftime("%Y-%m-%d")]
    with a four-digit year. *)
Definition iso_date (d : date) : string :=
  pad4 (year d) +:+ "-" +:+ pad2 (month d) +:+ "-" +:+ pad2 (day d).

Definition iso_time (dt : datetime) : string :=
  pad2 (hour dt) +:+ ":" +:+ pad2 (minute dt) +:+ ":" +:+ pad2 (second dt).

(** [strftime("%Y-%m-%dT%H:%M:%SZ")] *)
Definition iso_timestamp (dt : datetime) : string :=
  iso_date (dt_date dt) +:+ "T" +:+ iso_time dt +:+ "Z".

Definition hex_char (n : N) : ascii :=
  if (n <? 10)%N then ascii_of_N (48 + n) else ascii_of_N (87 + n).

Fixpoint has_char (c : ascii) (s : string) : bool :=
  match s with
  | EmptyString => false
  | String a s' => Ascii.eqb a c || has_char c s'
  end.

(** One character of [repr(str)] when [q] is the enclosing quote.  Bytes
    from 128 up are the UTF-8 code units of printable characters and are
    kept. *)
Definition repr_char (q : ascii) (c : ascii) : string :=
  let n := N_of_ascii c in
  if Ascii.eqb c "\" then "\\"
  else if Ascii.eqb c q then String "\" (String q "")
  else if (n =? 9)%N then "\t"
  else if (n =? 10)%N then "\n"
  else if (n =? 13)%N then "\r"
  else if ((n <? 32) || (n =? 127))%N
       then String "\" (String "x" (String (hex_char (n / 16)) (String (hex_char (n mod 16)) "")))
  else String c "".

Fixpoint repr_chars (q : ascii) (s : string) : string :=
  match s with
  | EmptyString => ""
  | String c s' => repr_char q c +:+ repr_chars q s'
  end.

Definition dquote : ascii := ascii_of_N 34.

(** [repr(s)]: double quotes only when [s] has a single quote and no
    double quote. *)
Definition repr_str (s : string) : string :=
  let q : ascii := if has_char "'" s && negb (has_char dquote s) then dquote else "'"%char in
  String q (repr_chars q s +:+ String q "").

(** [sep.join(l)] *)
Fixpoint join (sep : string) (l : list string) : string :=
  match l with
  | [] => ""
  | x :: xs =>
      match xs with
      | [] => x
      | _ => x +:+ sep +:+ join sep xs
      end
  end.

Fixpoint py_repr (v : pyval) : string :=
  match v with
  | PyNone => "None"
  | PyBool true => "True"
  | PyBool false => "False"
  | PyInt z => str_of_Z z
  | PyStr s => repr_str s
  | PyList l => "[" +:+ join ", " (map py_repr l) +:+ "]"
  | PyDate d =>
      "datetime.date(" +:+ str_of_Z (year d) +:+ ", " +:+ str_of_Z (month d)
        +:+ ", " +:+ str_of_Z (day d) +:+ ")"
  | PyDatetime dt =>
      "datetime.datetime(" +:+ str_of_Z (year (dt_date dt)) +:+ ", "
        +:+ str_of_Z (month (dt_date dt)) +:+ ", " +:+ str_of_Z (day (dt_date dt))
        +:+ ", " +:+ str_of_Z (hour dt) +:+ ", " +:+ str_of_Z (minute dt)
        +:+ (if second dt =? 0 then "" else ", " +:+ str_of_Z (second dt)) +:+ ")"
  end.

(** [str(v)], the value an f-string field [{v}] expands to.  The rendering
    is that of CPython for strings and for integers below the interpreter's
    digit limit for conversion to text. *)
Definition py_str (v : pyval) : string :=
  match v with
  | PyStr s => s
  | PyDate d => iso_date d
  | PyDatetime dt => iso_date (dt_date dt) +:+ " " +:+ iso_time dt
  | _ => py_repr v
  end.

(** ** Exceptions, requests and the client monad *)

Inductive exn :=
| ValidationError (loc : string) (msg : string)
| TransportError (msg : string).

Definition exn_msg (e : exn) : string :=
  match e with ValidationError _ msg => msg | TransportError msg => msg end.

Inductive result (A : Type) :=
| Ok (a : A)
| Raise (e : exn).
Arguments Ok {A} a.
Arguments Raise {A} e.

Inductive http_method := GET | POST | PUT | DELETE.

(** Parsed JSON, as the transport returns it; [JNull] is Python's [None]. *)
#[warnings="-register-all"]
Inductive json :=
| JNull
| JBool (b : bool)
| JNum (z : Z)
| JStr (s : string)
| JArr (l : list json)
| JObj (kvs : list (string * json)).

(** The arguments of one [fetch_json] call; a keyword the caller does not
    pass is [None]. *)
Record request := {
  uri : string;
  http : http_method;
  query_params : option (gmap string pyval);
  post_args : option (gmap string pyval)
}.

(** A pairing of verb and payload: query parameters only with GET, no body
    with GET, a body with POST and PUT. *)
Definition shape_ok (r : request) : Prop :=
  (is_Some (query_params r) -> http r = GET)
  ∧ (http r = GET -> post_args r = None)
  ∧ (http r = POST ∨ http r = PUT -> is_Some (post_args r)).

Definition io (A : Type) : Type := list request * result A.

Definition ret {A} (a : A) : io A := ([], Ok a).

Definition bind {A B} (m : io A) (f : A -> io B) : io B :=
  match m with
  | (t, Ok a) => let (t', r) := f a in (t ++ t', r)
  | (t, Raise e) => (t, Raise e)
  end.

(** A pure computation that may raise. *)
Definition lift {A} (r : result A) : io A := ([], r).

Declare Scope io_scope.
Delimit Scope io_scope with io.
Notation "x <- m ;; k" := (bind m (fun x => k))
  (at level 100, m at next level, right associativity) : io_scope.
Notation "m ;;; k" := (bind m (fun _ => k))
  (at level 100, right associativity) : io_scope.

Definition requests {A} (m : io A) : list request := fst m.
Definition outcome {A} (m : io A) : result A := snd m.

(** ** The imported collaborators *)

(** [BaseClient.fetch_json]: performs the call and returns parsed JSON or
    raises. *)
Class BaseClient := {
  transport : request -> result json
}.

Definition fetch_json `{BaseClient} (uri : string) (http_method : http_method)
    (query_params post_args : option (gmap string pyval)) : io json :=
  let r := {| uri := uri; http := http_method;
              query_params := query_params; post_args := post_args |} in
  ([r], transport r).

(** [noko_client.schemas.utilities].  [timestamp_to_string] may read the
    clock; the reading at call time is its first argument. *)
Class Utilities := {
  date_to_string : pyval -> result string;
  timestamp_to_string : datetime -> pyval -> result string;
  list_to_list_of_integers : pyval -> result (list Z)
}.

(** [noko_client.schemas]: each field is the schema's constructor applied
    to the keyword arguments, followed by [model_dump()]. *)
Class Schemas := {
  CreateNokoEntryParameters : gmap string pyval -> result (gmap string pyval);
  EditNokoEntryParameters : gmap string pyval -> result (gmap string pyval);
  GetNokoEntriesParameters : gmap string pyval -> result (gmap string pyval);
  GetNokoTagsParameters : gmap string pyval -> result (gmap string pyval)
}.

Definition int_list (zs : list Z) : pyval := PyList (PyInt <$> zs).

(** ** [class NokoClient(BaseClient)] *)

Module NokoClient.
Section Methods.
Context `{BaseClient} `{Utilities} `{Schemas}.
(** The clock reading during the call. *)
Variable now : datetime.

Local Open Scope io_scope.

Definition list_entries (kwargs : gmap string pyval) : io json :=
  params <- lift (GetNokoEntriesParameters kwargs) ;;
  fetch_json "entries" GET (Some params) None.

Definition get_single_entry (entry_id : pyval) : io json :=
  fetch_json ("entries/" +:+ py_str entry_id) GET None None.

Definition create_entry (kwargs : gmap string pyval) : io json :=
  data <- lift (CreateNokoEntryParameters kwargs) ;;
  fetch_json "entries" POST None (Some data).

Definition edit_entry (entry_id : pyval) (kwargs : gmap string pyval) : io json :=
  data <- lift (EditNokoEntryParameters kwargs) ;;
  fetch_json ("entries/" +:+ py_str entry_id) PUT None (Some data).

Definition mark_as_invoiced (entry_ids : pyval) (date : pyval) : io json :=
  date <- lift (date_to_string date) ;;
  let post_args : gmap string pyval := {[ "date" := PyStr date ]} in
  let uri := "entries/" +:+ py_str entry_ids +:+ "/mark_as_invoiced" in
  req <-
    (if is_list entry_ids then
       ids <- lift (list_to_list_of_integers entry_ids) ;;
       ret ("entries/mark_as_invoiced", <["entry_ids" := int_list ids]> post_args)
     else ret (uri, post_args)) ;;
  fetch_json req.1 PUT None (Some req.2) ;;;
  ret JNull.

Definition mark_as_approved (entry_ids : pyval) (approved_at : pyval) : io json :=
  approved_at <- lift (timestamp_to_string now approved_at) ;;
  let uri := "entries/" +:+ py_str entry_ids +:+ "/approved" in
  let post_args : gmap string pyval := {[ "approved_at" := PyStr approved_at ]} in
  req <-
    (if is_list entry_ids then
       ids <- lift (list_to_list_of_integers entry_ids) ;;
       ret ("entries/approved", <["entry_ids" := int_list ids]> post_args)
     else ret (uri, post_args)) ;;
  fetch_json req.1 PUT None (Some req.2) ;;;
  ret JNull.

Definition mark_as_unapproved (entry_ids : pyval) : io json :=
  let uri := "entries/" +:+ py_str entry_ids +:+ "/unapproved" in
  let post_args : gmap string pyval := ∅ in
  req <-
    (if is_list entry_ids then
       ids <- lift (list_to_list_of_integers entry_ids) ;;
       ret ("entries/unapproved", <["entry_ids" := int_list ids]> post_args)
     else ret (uri, post_args)) ;;
  fetch_json req.1 PUT None (Some req.2) ;;;
  ret JNull.

Definition delete_entry (entry_id : pyval) : io json :=
  fetch_json ("entries/" +:+ py_str entry_id) DELETE None None ;;;
  ret JNull.

Definition list_tags (kwargs : gmap string pyval) : io json :=
  params <- lift (GetNokoTagsParameters kwargs) ;;
  fetch_json "tags" GET (Some params) None.

Definition create_tags (names : pyval) : io json :=
  fetch_json "tags" POST None (Some {[ "names" := names ]}).

Definition get_single_tag (tag_id : pyval) : io json :=
  fetch_json ("tags/" +:+ py_str tag_id) GET None None.

Definition get_all_entries_for_tag (tag_id : pyval) (kwargs : gmap string pyval) : io json :=
  params <- lift (GetNokoEntriesParameters kwargs) ;;
  fetch_json ("tags/" +:+ py_str tag_id +:+ "/entries") GET (Some params) None.

Definition edit_tag (tag_id : pyval) (name : pyval) : io json :=
  fetch_json ("tags/" +:+ py_str tag_id) PUT None (Some {[ "name" := name ]}).

Definition merge_tag_into_this_tag (tag_id : pyval) (tag_to_merge_id : pyval) : io json :=
  fetch_json ("tags/" +:+ py_str tag_id +:+ "/merge") PUT None
             (Some {[ "tag_id" := tag_to_merge_id ]}) ;;;
  ret JNull.

Definition delete_single_tag (tag_id : pyval) : io json :=
  fetch_json ("tags/" +:+ py_str tag_id) DELETE None None ;;;
  ret JNull.

Definition delete_tags (tag_ids : pyval) : io json :=
  tag_ids <- lift (list_to_list_of_integers tag_ids) ;;
  fetch_json "tags/delete" DELETE None (Some {[ "tag_ids" := int_list tag_ids ]}) ;;;
  ret JNull.

(** What a status change sends once its arguments are normalised: one
    PUT, whose outcome is [None] unless the transport raises. *)
Definition put_then_none (u : string) (body : gmap string pyval) : io json :=
  ([ {| uri := u; http := PUT; query_params := None; post_args := Some body |} ],
   match transport {| uri := u; http := PUT; query_params := None;
                      post_args := Some body |} with
   | Ok _ => Ok JNull
   | Raise e => Raise e
   end).

(** The calls whose Python signature is [-> None]. *)
Inductive returns_none : io json -> Prop :=
| rn_mark_as_invoiced ids date : returns_none (mark_as_invoiced ids date)
| rn_mark_as_approved ids approved_at : returns_none (mark_as_approved ids approved_at)
| rn_mark_as_unapproved ids : returns_none (mark_as_unapproved ids)
| rn_delete_entry entry_id : returns_none (delete_entry entry_id)
| rn_merge_tag tag_id other : returns_none (merge_tag_into_this_tag tag_id other)
| rn_delete_single_tag tag_id : returns_none (delete_single_tag tag_id)
| rn_delete_tags tag_ids : returns_none (delete_tags tag_ids).

(** The three status changes, each with the name of its action in the
    URI and its [entry_ids] argument. *)
Inductive status_change : string -> pyval -> io json -> Prop :=
| sc_invoiced ids date :
    status_change "mark_as_invoiced" ids (mark_as_invoiced ids date)
| sc_approved ids approved_at :
    status_change "approved" ids (mark_as_approved ids approved_at)
| sc_unapproved ids :
    status_change "unapproved" ids (mark_as_unapproved ids).

(** [normalizer_fails m e]: in the call [m], a schema or a helper of
    [schemas.utilities] that the call reaches raises [e]. *)
Inductive normalizer_fails : io json -> exn -> Prop :=
| nf_list_entries kwargs e :
    GetNokoEntriesParameters kwargs = Raise e ->
    normalizer_fails (list_entries kwargs) e
| nf_create_entry kwargs e :
    CreateNokoEntryParameters kwargs = Raise e ->
    normalizer_fails (create_entry kwargs) e
| nf_edit_entry entry_id kwargs e :
    EditNokoEntryParameters kwargs = Raise e ->
    normalizer_fails (edit_entry entry_id kwargs) e
| nf_list_tags kwargs e :
    GetNokoTagsParameters kwargs = Raise e ->
    normalizer_fails (list_tags kwargs) e
| nf_get_all_entries_for_tag tag_id kwargs e :
    GetNokoEntriesParameters kwargs = Raise e ->
    normalizer_fails (get_all_entries_for_tag tag_id kwargs) e
| nf_invoiced_date ids date e :
    date_to_string date = Raise e ->
    normalizer_fails (mark_as_invoiced ids date) e
| nf_invoiced_ids ids date d e :
    date_to_string date = Ok d -> is_list ids = true ->
    list_to_list_of_integers ids = Raise e ->
    normalizer_fails (mark_as_invoiced ids date) e
| nf_approved_timestamp ids approved_at e :
    timestamp_to_string now approved_at = Raise e ->
    normalizer_fails (mark_as_approved ids approved_at) e
| nf_approved_ids ids approved_at ts e :
    timestamp_to_string now approved_at = Ok ts -> is_list ids = true ->
    list_to_list_of_integers ids = Raise e ->
    normalizer_fails (mark_as_approved ids approved_at) e
| nf_unapproved_ids ids e :
    is_list ids = true ->
    list_to_list_of_integers ids = Raise e ->
    normalizer_fails (mark_as_unapproved ids) e
| nf_delete_tags tag_ids e :
    list_to_list_of_integers tag_ids = Raise e ->
    normalizer_fails (delete_tags tag_ids) e.

(** Every public method of the class, applied to arguments. *)
Inductive client_call : io json -> Prop :=
| cc_list_entries kwargs : client_call (list_entries kwargs)
| cc_get_single_entry entry_id : client_call (get_single_entry entry_id)
| cc_create_entry kwargs : client_call (create_entry kwargs)
| cc_edit_entry entry_id kwargs : client_call (edit_entry entry_id kwargs)
| cc_mark_as_invoiced ids date : client_call (mark_as_invoiced ids date)
| cc_mark_as_approved ids approved_at : client_call (mark_as_approved ids approved_at)
| cc_mark_as_unapproved ids : client_call (mark_as_unapproved ids)
| cc_delete_entry entry_id : client_call (delete_entry entry_id)
| cc_list_tags kwargs : client_call (list_tags kwargs)
| cc_create_tags names : client_call (create_tags names)
| cc_get_single_tag tag_id : client_call (get_single_tag tag_id)
| cc_get_all_entries_for_tag tag_id kwargs :
    client_call (get_all_entries_for_tag tag_id kwargs)
| cc_edit_tag tag_id name : client_call (edit_tag tag_id name)
| cc_merge_tag tag_id other : client_call (merge_tag_into_this_tag tag_id other)
| cc_delete_single_tag tag_id : client_call (delete_single_tag tag_id)
| cc_delete_tags tag_ids : client_call (delete_tags tag_ids).

(** The calls whose body is [return self.fetch_json(...)]. *)
Inductive returns_response : io json -> Prop :=
| rr_list_entries kwargs : returns_response (list_entries kwargs)
| rr_get_single_entry entry_id : returns_response (get_single_entry entry_id)
| rr_create_entry kwargs : returns_response (create_entry kwargs)
| rr_edit_entry entry_id kwargs : returns_response (edit_entry entry_id kwargs)
| rr_list_tags kwargs : returns_response (list_tags kwargs)
| rr_create_tags names : returns_response (create_tags names)
| rr_get_single_tag tag_id : returns_response (get_single_tag tag_id)
| rr_get_all_entries_for_tag tag_id kwargs :
    returns_response (get_all_entries_for_tag tag_id kwargs)
| rr_edit_tag tag_id name : returns_response (edit_tag tag_id name).

(** The methods that interpolate one record ID into the URI and always send,
    as functions of that ID. *)
Inductive record_method : (pyval -> io json) -> Prop :=
| rm_get_single_entry : record_method get_single_entry
| rm_delete_entry : record_method delete_entry
| rm_get_single_tag : record_method get_single_tag
| rm_edit_tag name : record_method (fun tag_id => edit_tag tag_id name)
| rm_merge_tag other : record_method (fun tag_id => merge_tag_into_this_tag tag_id other)
| rm_delete_single_tag : record_method delete_single_tag
| rm_mark_as_unapproved : record_method mark_as_unapproved.

End Methods.
End NokoClient.

(** ** The normalisation helpers *)

Module SpecUtilities.

Definition digit_val (c : ascii) : option Z :=
  let n := N_of_ascii c in
  if ((48 <=? n) && (n <=? 57))%N then Some (Z.of_N n - 48) else None.

(** The number written by a string of decimal digits, most significant
    first, continuing from [acc]. *)
Fixpoint digits_val (acc : Z) (s : string) : option Z :=
  match s with
  | EmptyString => Some acc
  | String c s' =>
      match digit_val c with
      | Some d => digits_val (10 * acc + d) s'
      | None => None
      end
  end.

Definition is_leap (y : Z) : bool :=
  ((y mod 4 =? 0) && negb (y mod 100 =? 0)) || (y mod 400 =? 0).

Definition days_in_month (y m : Z) : Z :=
  if m =? 2 then (if is_leap y then 29 else 28)
  else if (m =? 4) || (m =? 6) || (m =? 9) || (m =? 11) then 30
  else 31.

(** The dates and datetimes Python's constructors build. *)
Definition valid_date (d : date) : bool :=
  (1 <=? year d) && (year d <=? 9999) && (1 <=? month d) && (month d <=? 12)
  && (1 <=? day d) && (day d <=? days_in_month (year d) (month d)).

Definition valid_datetime (dt : datetime) : bool :=
  valid_date (dt_date dt)
  && (0 <=? hour dt) && (hour dt <=? 23)
  && (0 <=? minute dt) && (minute dt <=? 59)
  && (0 <=? second dt) && (second dt <=? 59).

Definition str4 (a b c d : ascii) : string :=
  String a (String b (String c (String d ""))).
Definition str2 (a b : ascii) : string := String a (String b "").

(** Modelled from the spec: the reading of an ISO-8601 [YYYY-MM-DD]
    string, absent from the sources with the rest of
    [schemas/utilities.py]; [None] for a string that is not a calendar
    date in that format. *)
Definition parse_iso_date (s : string) : option date :=
  match s with
  | String y1 (String y2 (String y3 (String y4 (String c1
      (String m1 (String m2 (String c2 (String d1 (String d2 ""))))))))) =>
      if Ascii.eqb c1 "-" && Ascii.eqb c2 "-" then
        match digits_val 0 (str4 y1 y2 y3 y4), digits_val 0 (str2 m1 m2),
              digits_val 0 (str2 d1 d2) with
        | Some y, Some m, Some d =>
            let r := {| year := y; month := m; day := d |} in
            if valid_date r then Some r else None
        | _, _, _ => None
        end
      else None
  | _ => None
  end.

(** Modelled from the spec: the reading of an ISO-8601
    [YYYY-MM-DDTHH:MM:SSZ] string, absent from the sources with the rest
    of [schemas/utilities.py]. *)
Definition parse_iso_timestamp (s : string) : option datetime :=
  match s with
  | String y1 (String y2 (String y3 (String y4 (String c1
      (String m1 (String m2 (String c2 (String d1 (String d2 (String c3
      (String h1 (String h2 (String c4 (String i1 (String i2 (String c5
      (String s1 (String s2 (String c6 ""))))))))))))))))))) =>
      if Ascii.eqb c3 "T" && Ascii.eqb c4 ":" && Ascii.eqb c5 ":" && Ascii.eqb c6 "Z" then
        match parse_iso_date (String y1 (String y2 (String y3 (String y4 (String c1
                (String m1 (String m2 (String c2 (String d1 (String d2 "")))))))))),
              digits_val 0 (str2 h1 h2), digits_val 0 (str2 i1 i2),
              digits_val 0 (str2 s1 s2) with
        | Some d, Some h, Some mi, Some se =>
            let r := {| dt_date := d; hour := h; minute := mi; second := se |} in
            if valid_datetime r then Some r else None
        | _, _, _, _ => None
        end
      else None
  | _ => None
  end.

(** Modelled from the spec: [date_to_string] of [schemas/utilities.py],
    which is not among the sources.  A date or datetime object becomes its
    [YYYY-MM-DD] string, a string in that format is returned as it is, and
    anything else fails validation. *)
Definition date_to_string (value : pyval) : result string :=
  match value with
  | PyDatetime dt => Ok (iso_date (dt_date dt))
  | PyDate d => Ok (iso_date d)
  | PyStr s =>
      match parse_iso_date s with
      | Some _ => Ok s
      | None => Raise (ValidationError "date" "not an ISO 8601 date (YYYY-MM-DD)")
      end
  | _ => Raise (ValidationError "date" "not a date or a string")
  end.

(** Modelled from the spec: the timestamp rule of [schemas/utilities.py]
    for a value that is present: a datetime becomes its
    [YYYY-MM-DDTHH:MM:SSZ] string and a string in that format is returned
    as it is. *)
Definition timestamp_string (value : pyval) : result string :=
  match value with
  | PyDatetime dt => Ok (iso_timestamp dt)
  | PyStr s =>
      match parse_iso_timestamp s with
      | Some _ => Ok s
      | None => Raise (ValidationError "timestamp"
                         "not an ISO 8601 timestamp (YYYY-MM-DDTHH:MM:SSZ)")
      end
  | _ => Raise (ValidationError "timestamp" "not a datetime or a string")
  end.

(** Modelled from the spec: [timestamp_to_string] of
    [schemas/utilities.py], which is not among the sources.  An absent
    value ([None]) defaults to the current time. *)
Definition timestamp_to_string (now : datetime) (value : pyval) : result string :=
  match value with
  | PyNone => Ok (iso_timestamp now)
  | _ => timestamp_string value
  end.

(** Modelled from the spec: the integer a numeric string denotes, decimal
    digits with an optional leading minus sign; the coercion of ID strings is
    part of [schemas/utilities.py], which is not among the sources. *)
Definition int_of_str (s : string) : option Z :=
  Z.of_int <$> NilZero.int_of_string s.

(** Modelled from the spec: the coercion of one element of an ID list, an
    integer or a string of one; part of [schemas/utilities.py], which is not
    among the sources. *)
Definition to_int (v : pyval) : option Z :=
  match v with
  | PyInt z => Some z
  | PyStr s => int_of_str s
  | _ => None
  end.

(** [s.split(",")], with [cur] the piece read so far. *)
Fixpoint split_commas (cur : string) (s : string) : list string :=
  match s with
  | EmptyString => [cur]
  | String c s' =>
      if Ascii.eqb c "," then cur :: split_commas "" s'
      else split_commas (cur +:+ String c "") s'
  end.

(** Modelled from the spec: the integers an ID-list input denotes; the
    input is a list of integers and numeric strings, a comma-separated
    string of IDs, or a single integer.  The function is part of
    [schemas/utilities.py], which is not among the sources. *)
Definition ids_of (value : pyval) : option (list Z) :=
  match value with
  | PyList l => mapM to_int l
  | PyStr s => mapM int_of_str (split_commas "" s)
  | PyInt z => Some [z]
  | _ => None
  end.

(** Modelled from the spec: [list_to_list_of_integers] of
    [schemas/utilities.py], which is not among the sources: the array of
    integers for a JSON body, or a validation error. *)
Definition list_to_list_of_integers (value : pyval) : result (list Z) :=
  match ids_of value with
  | Some zs => Ok zs
  | None => Raise (ValidationError "ids" "not a list of integer IDs")
  end.

(** Modelled from the spec: the comma-separated string of integers that
    an ID-list field becomes in a query string; the function is part of
    [schemas/utilities.py], which is not among the sources. *)
Definition list_to_string (value : pyval) : result string :=
  match ids_of value with
  | Some zs => Ok (join "," (str_of_Z <$> zs))
  | None => Raise (ValidationError "ids" "not a list of integer IDs")
  end.

End SpecUtilities.

Definition spec_utilities : Utilities := {|
  date_to_string := SpecUtilities.date_to_string;
  timestamp_to_string := SpecUtilities.timestamp_to_string;
  list_to_list_of_integers := SpecUtilities.list_to_list_of_integers
|}.

(** ** The parameter schemas *)

Module SpecSchemas.

(** One declared field of a schema: its name, whether the operation
    requires it, and its coercion rule. *)
Record field := {
  fname : string;
  required : bool;
  coerce : pyval -> result pyval
}.

Definition is_none (v : pyval) : bool :=
  match v with PyNone => true | _ => false end.

Definition wrap (r : result string) : result pyval :=
  match r with Ok s => Ok (PyStr s) | Raise e => Raise e end.

(** Modelled from the spec: the type checks of plain fields ([str], [int],
    [str | int]), done by the pydantic schema modules that are not among the
    sources; a value of another type fails validation. *)
Definition coerce_str (v : pyval) : result pyval :=
  match v with
  | PyStr _ => Ok v
  | _ => Raise (ValidationError "str" "not a string")
  end.

(** Modelled from the spec: see [coerce_str]. *)
Definition coerce_int (v : pyval) : result pyval :=
  match v with
  | PyInt _ => Ok v
  | _ => Raise (ValidationError "int" "not an integer")
  end.

(** Modelled from the spec: see [coerce_str]. *)
Definition coerce_id (v : pyval) : result pyval :=
  match v with
  | PyInt _ | PyStr _ => Ok v
  | _ => Raise (ValidationError "id" "not a string or an integer")
  end.

(** Modelled from the spec: the rule for boolean-like filter fields, part
    of the schema modules that are not among the sources: a native boolean
    or the literal ["true"]/["false"], sent as the lower-case string. *)
Definition coerce_bool (v : pyval) : result pyval :=
  match v with
  | PyBool true => Ok (PyStr "true")
  | PyBool false => Ok (PyStr "false")
  | PyStr s =>
      if bool_decide (s = "true" ∨ s = "false") then Ok v
      else Raise (ValidationError "bool" "not true or false")
  | _ => Raise (ValidationError "bool" "not a boolean")
  end.

(** Modelled from the spec: the enum rule of the tag filter type, part of
    the schema modules that are not among the sources: one of a fixed set of
    strings, or a validation error. *)
Definition coerce_enum (allowed : list string) (v : pyval) : result pyval :=
  match v with
  | PyStr s =>
      if bool_decide (s ∈ allowed) then Ok v
      else Raise (ValidationError "enum" "not an accepted value")
  | _ => Raise (ValidationError "enum" "not a string")
  end.

Definition coerce_date (v : pyval) := wrap (SpecUtilities.date_to_string v).
Definition coerce_timestamp (v : pyval) := wrap (SpecUtilities.timestamp_string v).
Definition coerce_ids (v : pyval) := wrap (SpecUtilities.list_to_string v).

Definition opt (name : string) (c : pyval -> result pyval) : field :=
  {| fname := name; required := false; coerce := c |}.
Definition req (name : string) (c : pyval -> result pyval) : field :=
  {| fname := name; required := true; coerce := c |}.

(** Modelled from the spec: the dump of a schema instance, the work of the
    pydantic schema modules that are not among the sources.  A field left
    unset (absent or [None]) is not part of the dump, unless the operation
    requires it, which fails; a supplied field is coerced by its rule. *)
Fixpoint fill (fields : list field) (kwargs : gmap string pyval)
  : result (gmap string pyval) :=
  match fields with
  | [] => Ok ∅
  | f :: fs =>
      match kwargs !! fname f with
      | Some v =>
          if is_none v then
            if required f then Raise (ValidationError (fname f) "field required")
            else fill fs kwargs
          else
            match coerce f v with
            | Ok w =>
                match fill fs kwargs with
                | Ok m => Ok (<[fname f := w]> m)
                | Raise e => Raise e
                end
            | Raise e => Raise (ValidationError (fname f) (exn_msg e))
            end
      | None =>
          if required f then Raise (ValidationError (fname f) "field required")
          else fill fs kwargs
      end
  end.

(** The keyword arguments that name no declared field. *)
Definition unknown_fields (fields : list field) (kwargs : gmap string pyval)
  : list string :=
  elements (dom kwargs ∖ list_to_set (fname <$> fields) : gset string).

(** Modelled from the spec: construction of a strict schema from keyword
    arguments followed by [model_dump()]; the schema modules are not among
    the sources.  An unknown field fails validation. *)
Definition validate (fields : list field) (kwargs : gmap string pyval)
  : result (gmap string pyval) :=
  match unknown_fields fields kwargs with
  | k :: _ => Raise (ValidationError k "extra fields are not permitted")
  | [] => fill fields kwargs
  end.

Definition entry_fields (r : bool) : list field :=
  [ {| fname := "date"; required := r; coerce := coerce_date |};
    {| fname := "user_id"; required := r; coerce := coerce_id |};
    {| fname := "minutes"; required := r; coerce := coerce_int |};
    opt "description" coerce_str;
    opt "project_id" coerce_id;
    opt "project_name" coerce_str;
    opt "source_url" coerce_str ].

(** Modelled from the spec: [CreateNokoEntryParameters] of
    [schemas/entries_parameters.py], which is not among the sources; the
    fields are the keyword arguments documented by [create_entry], of which
    the spec requires the date, the user ID and the minutes. *)
Definition CreateNokoEntryParameters := validate (entry_fields true).

(** Modelled from the spec: [EditNokoEntryParameters] of
    [schemas/entries_parameters.py], which is not among the sources; the
    fields are the keyword arguments documented by [edit_entry], all
    optional. *)
Definition EditNokoEntryParameters := validate (entry_fields false).

(** Modelled from the spec: the fields of [GetNokoEntriesParameters] of
    [schemas/entries_parameters.py], which is not among the sources; they are
    the keyword arguments documented by [list_entries].  The accepted tag
    filter types are not stated and are a parameter. *)
Definition entries_filter_fields (tag_filter_types : list string) : list field :=
  [ opt "user_ids" coerce_ids;
    opt "description" coerce_str;
    opt "project_ids" coerce_ids;
    opt "tag_ids" coerce_ids;
    opt "tag_filter_type" (coerce_enum tag_filter_types);
    opt "from_" coerce_date;
    opt "to" coerce_date;
    opt "invoiced" coerce_bool;
    opt "updated_from" coerce_timestamp;
    opt "updated_to" coerce_timestamp;
    opt "billable" coerce_bool;
    opt "approved_at_from" coerce_date;
    opt "approved_at_to" coerce_date ].

Definition GetNokoEntriesParameters (tag_filter_types : list string) :=
  validate (entries_filter_fields tag_filter_types).

(** Modelled from the spec: the fields of [GetNokoTagsParameters] of
    [schemas/tags_parameters.py], which is not among the sources; they are
    the keyword arguments documented by [list_tags]. *)
Definition tags_filter_fields : list field :=
  [ opt "name" coerce_str; opt "billable" coerce_bool ].

Definition GetNokoTagsParameters := validate tags_filter_fields.

End SpecSchemas.

Definition spec_schemas (tag_filter_types : list string) : Schemas := {|
  CreateNokoEntryParameters := SpecSchemas.CreateNokoEntryParameters;
  EditNokoEntryParameters := SpecSchemas.EditNokoEntryParameters;
  GetNokoEntriesParameters := SpecSchemas.GetNokoEntriesParameters tag_filter_types;
  GetNokoTagsParameters := SpecSchemas.GetNokoTagsParameters
|}.

(** ** Concrete collaborators for worked examples *)

(** A transport that answers every request with one record. *)
Definition one_record_transport : BaseClient := {|
  transport := fun _ => Ok (JArr [JObj [("id", JNum 5)]])
|}.

(** A transport that is down. *)
Definition failing_transport : BaseClient := {|
  transport := fun _ => Raise (TransportError "503")
|}.

(** Helpers whose integer normaliser rejects everything. *)
Definition no_ids_utilities : Utilities := {|
  date_to_string := SpecUtilities.date_to_string;
  timestamp_to_string := SpecUtilities.timestamp_to_string;
  list_to_list_of_integers := fun _ => Raise (ValidationError "ids" "rejected")
|}.

Definition noon_2024_03_09 : datetime :=
  {| dt_date := {| year := 2024; month := 3; day := 9 |};
     hour := 12; minute := 0; second := 0 |}.

(** * Properties *)

(** ** Strings *)

Lemma string_length_app (s t : string) :
  String.length (s +:+ t) = (String.length s + String.length t)%nat.
Proof. induction s as [|c s IH]; simpl; [reflexivity | now rewrite IH]. Qed.

Lemma string_app_assoc (s t u : string) : (s +:+ t) +:+ u = s +:+ t +:+ u.
Proof. induction s as [|c s IH]; simpl; [reflexivity | now rewrite IH]. Qed.

Lemma string_app_nil_r (s : string) : s +:+ "" = s.
Proof. induction s as [|c s IH]; simpl; [reflexivity | now rewrite IH]. Qed.

(** A per-record path is never the bulk path: the interpolated identifier
    and the slash after it make it longer. *)
Lemma singular_uri_not_bulk (s action : string) :
  "entries/" +:+ s +:+ "/" +:+ action ≠ "entries/" +:+ action.
Proof.
  intros E. apply (f_equal String.length) in E.
  rewrite !string_length_app in E. simpl in E. lia.
Qed.

(** ** The client against any transport, helpers and schemas *)

Section ClientFacts.
Context `{BaseClient} `{Utilities} `{Schemas}.
Variable now : datetime.

Import NokoClient.

Lemma requests_lift_bind {A B} (r : result A) (k : A -> io B) :
  bind (lift r) k = match r with Ok a => k a | Raise e => ([], Raise e) end.
Proof. destruct r as [a|e]; simpl; [now destruct (k a) | reflexivity]. Qed.

Lemma bind_ret_l {A B} (a : A) (k : A -> io B) : bind (ret a) k = k a.
Proof. unfold bind, ret. now destruct (k a). Qed.

Lemma fetch_then_none (u : string) (body : gmap string pyval) :
  bind (fetch_json u PUT None (Some body)) (fun _ => ret JNull) = put_then_none u body.
Proof.
  unfold fetch_json, put_then_none, bind, ret.
  now destruct (transport _).
Qed.

Lemma mark_as_invoiced_scalar ids date d :
  date_to_string date = Ok d -> is_list ids = false ->
  mark_as_invoiced ids date =
    put_then_none ("entries/" +:+ py_str ids +:+ "/mark_as_invoiced")
                  {[ "date" := PyStr d ]}.
Proof.
  intros Hd Hl. unfold mark_as_invoiced.
  rewrite requests_lift_bind, Hd, Hl, bind_ret_l. apply fetch_then_none.
Qed.

Lemma mark_as_invoiced_bulk ids date d zs :
  date_to_string date = Ok d -> is_list ids = true ->
  list_to_list_of_integers ids = Ok zs ->
  mark_as_invoiced ids date =
    put_then_none "entries/mark_as_invoiced"
                  (<["entry_ids" := int_list zs]> {[ "date" := PyStr d ]}).
Proof.
  intros Hd Hl Hz. unfold mark_as_invoiced.
  rewrite requests_lift_bind, Hd, Hl, requests_lift_bind, Hz, bind_ret_l.
  apply fetch_then_none.
Qed.

Lemma mark_as_approved_scalar ids approved_at ts :
  timestamp_to_string now approved_at = Ok ts -> is_list ids = false ->
  mark_as_approved now ids approved_at =
    put_then_none ("entries/" +:+ py_str ids +:+ "/approved")
                  {[ "approved_at" := PyStr ts ]}.
Proof.
  intros Hd Hl. unfold mark_as_approved.
  rewrite requests_lift_bind, Hd, Hl, bind_ret_l. apply fetch_then_none.
Qed.

Lemma mark_as_approved_bulk ids approved_at ts zs :
  timestamp_to_string now approved_at = Ok ts -> is_list ids = true ->
  list_to_list_of_integers ids = Ok zs ->
  mark_as_approved now ids approved_at =
    put_then_none "entries/approved"
                  (<["entry_ids" := int_list zs]> {[ "approved_at" := PyStr ts ]}).
Proof.
  intros Hd Hl Hz. unfold mark_as_approved.
  rewrite requests_lift_bind, Hd, Hl, requests_lift_bind, Hz, bind_ret_l.
  apply fetch_then_none.
Qed.

Lemma mark_as_unapproved_scalar ids :
  is_list ids = false ->
  mark_as_unapproved ids =
    put_then_none ("entries/" +:+ py_str ids +:+ "/unapproved") ∅.
Proof.
  intros Hl. unfold mark_as_unapproved. rewrite Hl, bind_ret_l. apply fetch_then_none.
Qed.

Lemma mark_as_unapproved_bulk ids zs :
  is_list ids = true -> list_to_list_of_integers ids = Ok zs ->
  mark_as_unapproved ids =
    put_then_none "entries/unapproved" (<["entry_ids" := int_list zs]> ∅).
Proof.
  intros Hl Hz. unfold mark_as_unapproved.
  rewrite Hl, requests_lift_bind, Hz, bind_ret_l. apply fetch_then_none.
Qed.

(** C1: once the date is normalised to [d], [mark_as_invoiced] with a
    non-list [entry_ids] hands the transport exactly one PUT to
    [entries/{entry_ids}/mark_as_invoiced] with body [{"date": d}]; with a
    list whose elements [list_to_list_of_integers] turns into [zs], exactly
    one PUT to [entries/mark_as_invoiced] with body
    [{"date": d, "entry_ids": zs}]. *)
Theorem mark_as_invoiced_request (entry_ids date : pyval) (d : string) :
  date_to_string date = Ok d ->
  (is_list entry_ids = false ->
   requests (mark_as_invoiced entry_ids date) =
     [ {| uri := "entries/" +:+ py_str entry_ids +:+ "/mark_as_invoiced";
          http := PUT; query_params := None;
          post_args := Some {[ "date" := PyStr d ]} |} ])
  ∧ (∀ zs : list Z,
       is_list entry_ids = true ->
       list_to_list_of_integers entry_ids = Ok zs ->
       requests (mark_as_invoiced entry_ids date) =
         [ {| uri := "entries/mark_as_invoiced";
              http := PUT; query_params := None;
              post_args := Some (<["entry_ids" := int_list zs]>
                                   {[ "date" := PyStr d ]}) |} ]).
Proof.
  intros Hd. split.
  - intros Hl. now rewrite (mark_as_invoiced_scalar _ _ _ Hd Hl).
  - intros zs Hl Hz. now rewrite (mark_as_invoiced_bulk _ _ _ _ Hd Hl Hz).
Qed.

(** C2: when a schema or a normalisation helper reached by a call raises
    [e], the call raises that same error and hands nothing to the
    transport. *)
Theorem normalizer_failure_sends_nothing (m : io json) (e : exn) :
  normalizer_fails now m e -> requests m = [] ∧ outcome m = Raise e.
Proof.
  destruct 1;
    unfold list_entries, create_entry, edit_entry, list_tags,
      get_all_entries_for_tag, mark_as_invoiced, mark_as_approved,
      mark_as_unapproved, delete_tags;
    rewrite ?requests_lift_bind;
    repeat match goal with
           | Hx : _ = _ |- _ => rewrite Hx; clear Hx
           end;
    rewrite ?requests_lift_bind;
    repeat match goal with
           | Hx : _ = _ |- _ => rewrite Hx; clear Hx
           end;
    now split.
Qed.

Lemma requests_put_then_none u body r :
  r ∈ requests (put_then_none u body) ->
  r = {| uri := u; http := PUT; query_params := None; post_args := Some body |}.
Proof. unfold put_then_none, requests. simpl. now intros ->%list_elem_of_singleton. Qed.

(** Every status change is either silent or one PUT of one of two shapes. *)
Lemma status_change_cases action ids m :
  status_change now action ids m ->
  requests m = []
  ∨ (is_list ids = false ∧ ∃ body,
       body !! "entry_ids" = None ∧
       m = put_then_none ("entries/" +:+ py_str ids +:+ "/" +:+ action) body)
  ∨ (is_list ids = true ∧ ∃ body,
       m = put_then_none ("entries/" +:+ action) body).
Proof.
  destruct 1 as [ids date|ids approved_at|ids].
  - destruct (date_to_string date) as [d|e] eqn:Hd.
    2:{ left. unfold mark_as_invoiced. now rewrite requests_lift_bind, Hd. }
    destruct (is_list ids) eqn:Hl.
    + destruct (list_to_list_of_integers ids) as [zs|e] eqn:Hz.
      * right; right. split; [done|]. eexists.
        apply (mark_as_invoiced_bulk _ _ _ _ Hd Hl Hz).
      * left. unfold mark_as_invoiced.
        now rewrite requests_lift_bind, Hd, Hl, requests_lift_bind, Hz.
    + right; left. split; [done|]. eexists. split; [|apply (mark_as_invoiced_scalar _ _ _ Hd Hl)].
      now rewrite lookup_singleton_ne.
  - destruct (timestamp_to_string now approved_at) as [d|e] eqn:Hd.
    2:{ left. unfold mark_as_approved. now rewrite requests_lift_bind, Hd. }
    destruct (is_list ids) eqn:Hl.
    + destruct (list_to_list_of_integers ids) as [zs|e] eqn:Hz.
      * right; right. split; [done|]. eexists.
        apply (mark_as_approved_bulk _ _ _ _ Hd Hl Hz).
      * left. unfold mark_as_approved.
        now rewrite requests_lift_bind, Hd, Hl, requests_lift_bind, Hz.
    + right; left. split; [done|]. eexists. split; [|apply (mark_as_approved_scalar _ _ _ Hd Hl)].
      now rewrite lookup_singleton_ne.
  - destruct (is_list ids) eqn:Hl.
    + destruct (list_to_list_of_integers ids) as [zs|e] eqn:Hz.
      * right; right. split; [done|]. eexists.
        apply (mark_as_unapproved_bulk _ _ Hl Hz).
      * left. unfold mark_as_unapproved.
        now rewrite Hl, requests_lift_bind, Hz.
    + right; left. split; [done|]. eexists. split; [|apply (mark_as_unapproved_scalar _ Hl)].
      apply lookup_empty.
Qed.

(** The path of a request that a status change sent tells whether
    [entry_ids] was a list. *)
Lemma sent_request_path (action : string) (entry_ids : pyval) (m : io json)
    (r : request) :
  status_change now action entry_ids m -> r ∈ requests m ->
  http r = PUT
  ∧ (uri r = "entries/" +:+ action <-> is_list entry_ids = true)
  ∧ (is_list entry_ids = false ->
     uri r = "entries/" +:+ py_str entry_ids +:+ "/" +:+ action
     ∧ ∃ body, post_args r = Some body ∧ body !! "entry_ids" = None).
Proof.
  intros Hsc Hr.
  destruct (status_change_cases _ _ _ Hsc)
    as [Hnil | [(Hl & body & Hb & ->) | (Hl & body & ->)]].
  - rewrite Hnil in Hr. now apply elem_of_nil in Hr.
  - apply requests_put_then_none in Hr as ->. simpl.
    split; [done|]. split.
    + split; [|congruence]. intros E. now apply singular_uri_not_bulk in E.
    + intros _. split; [done|]. now exists body.
  - apply requests_put_then_none in Hr as ->. simpl.
    split; [done|]. split; [done|congruence].
Qed.

(** C8: in [mark_as_invoiced], [mark_as_approved] and [mark_as_unapproved],
    a non-list [entry_ids] makes the call send exactly one PUT to the
    per-record path [entries/{entry_ids}/{action}], with [entry_ids]
    interpolated as [str] gives it (a string as it is, so ["5,6"] goes to
    [entries/5,6/{action}]) and no [entry_ids] field in the body; a list
    whose elements the helper normalises makes it send exactly one PUT to
    the bulk path [entries/{action}] with [entry_ids] in the body; and the
    two paths never coincide, so a request is on the bulk path exactly when
    [entry_ids] is a list. *)
Theorem bulk_iff_list (entry_ids v : pyval) :
  (is_list entry_ids = false ->
   (∀ d, date_to_string v = Ok d ->
      requests (mark_as_invoiced entry_ids v) =
        [ {| uri := "entries/" +:+ py_str entry_ids +:+ "/mark_as_invoiced";
             http := PUT; query_params := None;
             post_args := Some {[ "date" := PyStr d ]} |} ])
   ∧ (∀ ts, timestamp_to_string now v = Ok ts ->
        requests (mark_as_approved now entry_ids v) =
          [ {| uri := "entries/" +:+ py_str entry_ids +:+ "/approved";
               http := PUT; query_params := None;
               post_args := Some {[ "approved_at" := PyStr ts ]} |} ])
   ∧ requests (mark_as_unapproved entry_ids) =
       [ {| uri := "entries/" +:+ py_str entry_ids +:+ "/unapproved";
            http := PUT; query_params := None; post_args := Some ∅ |} ])
  ∧ (∀ zs, is_list entry_ids = true ->
       list_to_list_of_integers entry_ids = Ok zs ->
       (∀ d, date_to_string v = Ok d ->
          requests (mark_as_invoiced entry_ids v) =
            [ {| uri := "entries/mark_as_invoiced"; http := PUT;
                 query_params := None;
                 post_args := Some (<["entry_ids" := int_list zs]>
                                      {[ "date" := PyStr d ]}) |} ])
       ∧ (∀ ts, timestamp_to_string now v = Ok ts ->
            requests (mark_as_approved now entry_ids v) =
              [ {| uri := "entries/approved"; http := PUT;
                   query_params := None;
                   post_args := Some (<["entry_ids" := int_list zs]>
                                        {[ "approved_at" := PyStr ts ]}) |} ])
       ∧ requests (mark_as_unapproved entry_ids) =
           [ {| uri := "entries/unapproved"; http := PUT;
                query_params := None;
                post_args := Some (<["entry_ids" := int_list zs]> ∅) |} ])
  ∧ (∀ action m r, status_change now action entry_ids m -> r ∈ requests m ->
       http r = PUT
       ∧ (uri r = "entries/" +:+ action <-> is_list entry_ids = true)
       ∧ (is_list entry_ids = false ->
          uri r = "entries/" +:+ py_str entry_ids +:+ "/" +:+ action
          ∧ ∃ body, post_args r = Some body ∧ body !! "entry_ids" = None))
  ∧ (∀ s, py_str (PyStr s) = s).
Proof.
  split; [|split; [|split]].
  - intros Hl. split; [|split].
    + intros d Hd. now rewrite (mark_as_invoiced_scalar _ _ _ Hd Hl).
    + intros ts Hts. now rewrite (mark_as_approved_scalar _ _ _ Hts Hl).
    + now rewrite (mark_as_unapproved_scalar _ Hl).
  - intros zs Hl Hz. split; [|split].
    + intros d Hd. now rewrite (mark_as_invoiced_bulk _ _ _ _ Hd Hl Hz).
    + intros ts Hts. now rewrite (mark_as_approved_bulk _ _ _ _ Hts Hl Hz).
    + now rewrite (mark_as_unapproved_bulk _ _ Hl Hz).
  - intros action m r Hsc Hr. exact (sent_request_path action entry_ids m r Hsc Hr).
  - reflexivity.
Qed.

Lemma fetch_delete_then_none (u : string) (r : request) (j : json) :
  let m := bind (fetch_json u DELETE None None) (fun _ => ret JNull) in
  (∀ v, outcome m = Ok v -> v = JNull)
  ∧ (r ∈ requests m -> transport r = Ok j -> outcome m = Ok JNull).
Proof.
  unfold fetch_json, bind, ret, outcome, requests. simpl.
  destruct (transport {| uri := u |}) eqn:Ht; simpl.
  - split; [congruence|reflexivity].
  - split; [congruence|]. intros ->%list_elem_of_singleton. congruence.
Qed.

Lemma put_then_none_discards (u : string) (body : gmap string pyval)
    (r : request) (j : json) :
  (∀ v, outcome (put_then_none u body) = Ok v -> v = JNull)
  ∧ (r ∈ requests (put_then_none u body) -> transport r = Ok j ->
     outcome (put_then_none u body) = Ok JNull).
Proof.
  unfold put_then_none, outcome, requests. simpl.
  destruct (transport {| uri := u |}) eqn:Ht.
  - split; [congruence|reflexivity].
  - split; [congruence|]. intros ->%list_elem_of_singleton. congruence.
Qed.

Lemma silent_call_discards (m : io json) (r : request) (j : json) :
  requests m = [] -> (∃ e, outcome m = Raise e) ->
  (∀ v, outcome m = Ok v -> v = JNull)
  ∧ (r ∈ requests m -> transport r = Ok j -> outcome m = Ok JNull).
Proof.
  intros Hnil [e He]. split.
  - intros v. rewrite He. congruence.
  - rewrite Hnil. now intros ?%elem_of_nil.
Qed.

(** A status change that sends nothing has raised. *)
Lemma status_change_silent action ids m :
  status_change now action ids m -> requests m = [] -> ∃ e, outcome m = Raise e.
Proof.
  destruct 1 as [ids date|ids approved_at|ids];
    unfold mark_as_invoiced, mark_as_approved, mark_as_unapproved;
    rewrite ?requests_lift_bind;
    repeat match goal with
           | |- context [match ?r with Ok _ => _ | Raise _ => _ end] =>
               destruct r eqn:?; rewrite ?requests_lift_bind
           | |- context [if ?b then _ else _] => destruct b eqn:?
           end;
    rewrite ?bind_ret_l, ?fetch_then_none; simpl;
    try discriminate; eauto.
Qed.

(** C9: each of the seven calls declared [-> None] yields [None] whenever
    it returns at all, and it does return [None] as soon as the request it
    sent was answered by the transport, whatever parsed JSON [j] the
    answer was. *)
Theorem none_returning_discards_response (m : io json) (r : request) (j : json) :
  returns_none now m ->
  (∀ v, outcome m = Ok v -> v = JNull)
  ∧ (r ∈ requests m -> transport r = Ok j -> outcome m = Ok JNull).
Proof.
  assert (Hsc : ∀ action ids m', status_change now action ids m' ->
            (∀ v, outcome m' = Ok v -> v = JNull)
            ∧ (r ∈ requests m' -> transport r = Ok j -> outcome m' = Ok JNull)).
  { intros action ids m' Hm'.
    destruct (status_change_cases _ _ _ Hm')
      as [Hnil | [(_ & body & _ & ->) | (_ & body & ->)]].
    - apply silent_call_discards; [done|]. eapply status_change_silent; eauto.
    - apply put_then_none_discards.
    - apply put_then_none_discards. }
  destruct 1.
  - eapply Hsc. constructor.
  - eapply Hsc. constructor.
  - eapply Hsc. constructor.
  - apply fetch_delete_then_none.
  - unfold merge_tag_into_this_tag. rewrite fetch_then_none.
    apply put_then_none_discards.
  - apply fetch_delete_then_none.
  - unfold delete_tags. rewrite requests_lift_bind.
    destruct (list_to_list_of_integers tag_ids) as [zs|e].
    + unfold fetch_json, bind, ret, outcome, requests. simpl.
      destruct (transport {| uri := "tags/delete" |}) eqn:Ht; simpl.
      * split; [congruence|reflexivity].
      * split; [congruence|]. intros ->%list_elem_of_singleton. congruence.
    + apply silent_call_discards; [done|]. now exists e.
Qed.

(** C10: for every pair of arguments, [merge_tag_into_this_tag] hands the
    transport exactly one PUT to [tags/{tag_id}/merge] whose body is
    [{"tag_id": tag_to_merge_id}] with the second argument as the caller
    passed it, and nothing but the transport can make the call raise. *)
Theorem merge_tag_request (tag_id tag_to_merge_id : pyval) :
  let r := {| uri := "tags/" +:+ py_str tag_id +:+ "/merge"; http := PUT;
              query_params := None;
              post_args := Some {[ "tag_id" := tag_to_merge_id ]} |} in
  requests (merge_tag_into_this_tag tag_id tag_to_merge_id) = [r]
  ∧ outcome (merge_tag_into_this_tag tag_id tag_to_merge_id) =
      match transport r with Ok _ => Ok JNull | Raise e => Raise e end.
Proof.
  unfold merge_tag_into_this_tag. now rewrite fetch_then_none.
Qed.

End ClientFacts.

(** Worked instances of the theorems above, with the helpers and schemas
    modelled from the spec and a transport that answers. *)

Lemma mark_as_invoiced_request_examples :
  requests (@NokoClient.mark_as_invoiced one_record_transport spec_utilities
              (PyInt 5) (PyStr "2024-01-01")) =
    [ {| uri := "entries/5/mark_as_invoiced"; http := PUT; query_params := None;
         post_args := Some {[ "date" := PyStr "2024-01-01" ]} |} ]
  ∧ requests (@NokoClient.mark_as_invoiced one_record_transport spec_utilities
                (PyList [PyInt 5; PyInt 6; PyStr "7"]) (PyStr "2024-01-01")) =
      [ {| uri := "entries/mark_as_invoiced"; http := PUT; query_params := None;
           post_args := Some (<["entry_ids" := PyList [PyInt 5; PyInt 6; PyInt 7]]>
                                {[ "date" := PyStr "2024-01-01" ]}) |} ].
Proof.
  split.
  - apply (@mark_as_invoiced_request one_record_transport spec_utilities
             (PyInt 5) (PyStr "2024-01-01") "2024-01-01"); reflexivity.
  - apply (proj2 (@mark_as_invoiced_request one_record_transport spec_utilities
                    (PyList [PyInt 5; PyInt 6; PyStr "7"]) (PyStr "2024-01-01")
                    "2024-01-01" eq_refl) [5; 6; 7]); reflexivity.
Defined.

Lemma normalizer_failure_examples :
  (requests (@NokoClient.list_entries one_record_transport (spec_schemas ["and"])
               {[ "colour" := PyStr "red" ]}) = []
   ∧ outcome (@NokoClient.list_entries one_record_transport (spec_schemas ["and"])
                {[ "colour" := PyStr "red" ]}) =
       Raise (ValidationError "colour" "extra fields are not permitted"))
  ∧ (requests (@NokoClient.delete_tags one_record_transport spec_utilities
                 (PyList [PyInt 1; PyStr "x"])) = []
     ∧ outcome (@NokoClient.delete_tags one_record_transport spec_utilities
                  (PyList [PyInt 1; PyStr "x"])) =
         Raise (ValidationError "ids" "not a list of integer IDs")).
Proof.
  split.
  - apply (@normalizer_failure_sends_nothing one_record_transport spec_utilities
             (spec_schemas ["and"]) noon_2024_03_09).
    apply NokoClient.nf_list_entries. vm_compute. reflexivity.
  - apply (@normalizer_failure_sends_nothing one_record_transport spec_utilities
             (spec_schemas ["and"]) noon_2024_03_09).
    apply NokoClient.nf_delete_tags. reflexivity.
Defined.

Lemma bulk_iff_list_comma_string :
  requests (@NokoClient.mark_as_invoiced one_record_transport spec_utilities
              (PyStr "5,6") (PyStr "2024-01-01")) =
    [ {| uri := "entries/5,6/mark_as_invoiced"; http := PUT; query_params := None;
         post_args := Some {[ "date" := PyStr "2024-01-01" ]} |} ]
  ∧ requests (@NokoClient.mark_as_unapproved one_record_transport spec_utilities
                (PyInt 7)) =
      [ {| uri := "entries/7/unapproved"; http := PUT; query_params := None;
           post_args := Some ∅ |} ]
  ∧ requests (@NokoClient.mark_as_unapproved one_record_transport spec_utilities
                (PyList [PyInt 5; PyStr "6"])) =
      [ {| uri := "entries/unapproved"; http := PUT; query_params := None;
           post_args := Some (<["entry_ids" := int_list [5; 6]]> ∅) |} ]
  ∧ requests (@NokoClient.mark_as_approved one_record_transport spec_utilities
                noon_2024_03_09 (PyList [PyInt 5; PyStr "6"])
                (PyStr "2024-01-01T08:30:00Z")) =
      [ {| uri := "entries/approved"; http := PUT; query_params := None;
           post_args := Some (<["entry_ids" := int_list [5; 6]]>
                                {[ "approved_at" := PyStr "2024-01-01T08:30:00Z" ]}) |} ].
Proof.
  split; [|split; [|split]].
  - apply (proj1 (proj1 (@bulk_iff_list one_record_transport spec_utilities
                           noon_2024_03_09 (PyStr "5,6") (PyStr "2024-01-01"))
                    eq_refl) "2024-01-01").
    reflexivity.
  - apply (proj2 (proj2 (proj1 (@bulk_iff_list one_record_transport spec_utilities
                                  noon_2024_03_09 (PyInt 7) PyNone)
                           eq_refl))).
  - apply (proj2 (proj2 (proj1 (proj2 (@bulk_iff_list one_record_transport
                                         spec_utilities noon_2024_03_09
                                         (PyList [PyInt 5; PyStr "6"]) PyNone))
                           [5; 6] eq_refl eq_refl))).
  - apply (proj1 (proj2 (proj1 (proj2 (@bulk_iff_list one_record_transport
                                         spec_utilities noon_2024_03_09
                                         (PyList [PyInt 5; PyStr "6"])
                                         (PyStr "2024-01-01T08:30:00Z")))
                           [5; 6] eq_refl eq_refl))
             "2024-01-01T08:30:00Z").
    reflexivity.
Defined.

Lemma delete_tags_discards_the_record :
  outcome (@NokoClient.delete_tags one_record_transport spec_utilities
             (PyList [PyInt 1; PyStr "2"])) = Ok JNull.
Proof.
  apply (proj2 (@none_returning_discards_response one_record_transport
                  spec_utilities noon_2024_03_09
                  (@NokoClient.delete_tags one_record_transport spec_utilities
                     (PyList [PyInt 1; PyStr "2"]))
                  {| uri := "tags/delete"; http := DELETE; query_params := None;
                     post_args := Some {[ "tag_ids" := PyList [PyInt 1; PyInt 2] ]} |}
                  (JArr [JObj [("id", JNum 5)]])
                  (NokoClient.rn_delete_tags _ _))).
  - vm_compute. constructor.
  - reflexivity.
Defined.

(** ** The schemas *)

Section SchemaFacts.
Import SpecSchemas.

Lemma is_none_false v : is_none v = false <-> v ≠ PyNone.
Proof. destruct v; simpl; split; congruence. Qed.

(** A dumped field was supplied with a value other than [None]. *)
Lemma fill_supplied fields kwargs m k w :
  fill fields kwargs = Ok m -> m !! k = Some w ->
  k ∈ fname <$> fields ∧ ∃ v, kwargs !! k = Some v ∧ v ≠ PyNone.
Proof.
  revert m. induction fields as [|f fs IH]; simpl; intros m Hm Hk.
  - injection Hm as <-. now rewrite lookup_empty in Hk.
  - assert (Hrec : ∀ m', fill fs kwargs = Ok m' -> m' !! k = Some w ->
              k ∈ fname f :: (fname <$> fs) ∧ ∃ v, kwargs !! k = Some v ∧ v ≠ PyNone).
    { intros m' H1 H2. destruct (IH m' H1 H2) as [Hin Hv].
      split; [now apply list_elem_of_further | exact Hv]. }
    destruct (kwargs !! fname f) as [v|] eqn:Hv.
    + destruct (is_none v) eqn:Hn.
      * destruct (required f); [discriminate|]. eauto.
      * destruct (coerce f v) as [w'|e]; [|discriminate].
        destruct (fill fs kwargs) as [m'|e] eqn:Hfs; [|discriminate].
        injection Hm as <-.
        destruct (decide (fname f = k)) as [<-|Hne].
        -- split; [apply list_elem_of_here|].
           exists v. split; [exact Hv | now apply is_none_false].
        -- rewrite lookup_insert_ne in Hk by exact Hne. eauto.
    + destruct (required f); [discriminate|]. eauto.
Qed.

(** The dump of a declared field, when field names are distinct. *)
Lemma fill_field fields kwargs m f :
  NoDup (fname <$> fields) -> f ∈ fields -> fill fields kwargs = Ok m ->
  match kwargs !! fname f with
  | Some v => if is_none v then m !! fname f = None
              else ∃ w, coerce f v = Ok w ∧ m !! fname f = Some w
  | None => m !! fname f = None
  end.
Proof.
  revert m. induction fields as [|g fs IH]; simpl; intros m Hnd Hin Hm.
  - now apply elem_of_nil in Hin.
  - apply NoDup_cons in Hnd as [Hg Hnd].
    apply elem_of_cons in Hin as [->|Hin].
    + assert (Hfresh : ∀ m', fill fs kwargs = Ok m' -> m' !! fname g = None).
      { intros m' Hm'. destruct (m' !! fname g) as [w|] eqn:Hw; [|done].
        now destruct (fill_supplied _ _ _ _ _ Hm' Hw) as [? _]. }
      destruct (kwargs !! fname g) as [v|] eqn:Hv.
      * destruct (is_none v) eqn:Hn.
        -- destruct (required g); [discriminate|]. eauto.
        -- destruct (coerce g v) as [w'|e]; [|discriminate].
           destruct (fill fs kwargs) as [m'|e] eqn:Hfs; [|discriminate].
           injection Hm as <-. exists w'. split; [done|]. apply lookup_insert_eq.
      * destruct (required g); [discriminate|]. eauto.
    + assert (Hne : fname g ≠ fname f).
      { intros E. apply Hg. rewrite E. apply list_elem_of_fmap. eauto. }
      destruct (kwargs !! fname g) as [v|] eqn:Hv.
      * destruct (is_none v) eqn:Hn.
        -- destruct (required g); [discriminate|]. now apply IH.
        -- destruct (coerce g v) as [w'|e]; [|discriminate].
           destruct (fill fs kwargs) as [m'|e] eqn:Hfs; [|discriminate].
           injection Hm as <-. rewrite lookup_insert_ne by exact Hne. now apply IH.
      * destruct (required g); [discriminate|]. now apply IH.
Qed.

Lemma validate_fill fields kwargs m :
  validate fields kwargs = Ok m ->
  fill fields kwargs = Ok m ∧ ∀ k, is_Some (kwargs !! k) -> k ∈ fname <$> fields.
Proof.
  unfold validate, unknown_fields.
  destruct (elements _) as [|k ks] eqn:He; [|discriminate].
  intros Hm. split; [exact Hm|]. intros k Hk.
  apply elements_empty_inv in He. apply leibniz_equiv in He.
  apply elem_of_dom in Hk.
  destruct (decide (k ∈ fname <$> fields)) as [|Hno]; [done|].
  assert (k ∈ (dom kwargs ∖ list_to_set (fname <$> fields) : gset string)) as Hin.
  { apply elem_of_difference. split; [exact Hk|]. now rewrite elem_of_list_to_set. }
  rewrite He in Hin. now apply not_elem_of_empty in Hin.
Qed.

(** A keyword argument that names no declared field fails validation. *)
Lemma validate_unknown_field fields kwargs k :
  is_Some (kwargs !! k) -> k ∉ fname <$> fields ->
  ∃ k', validate fields kwargs = Raise (ValidationError k' "extra fields are not permitted").
Proof.
  intros Hk Hno. unfold validate, unknown_fields.
  destruct (elements _) as [|k' ks] eqn:He; [|eauto].
  apply elements_empty_inv in He. apply leibniz_equiv in He.
  assert (k ∈ (dom kwargs ∖ list_to_set (fname <$> fields) : gset string)) as Hin.
  { apply elem_of_difference. split; [now apply elem_of_dom|].
    now rewrite elem_of_list_to_set. }
  rewrite He in Hin. now apply not_elem_of_empty in Hin.
Qed.

Lemma entry_fields_NoDup r : NoDup (fname <$> entry_fields r).
Proof. simpl. apply (bool_decide_unpack _). vm_compute. exact I. Qed.



End SchemaFacts.

(** C5: when the partial-update schema accepts the keyword arguments of
    [edit_entry], the call hands the transport one PUT to
    [entries/{entry_id}] whose body is the schema's dump; a parameter left
    unset (not passed, or passed as [None]) is not a key of that body, and
    every parameter supplied is. *)
Theorem edit_entry_omits_unset (bc : BaseClient) (tag_filter_types : list string)
    (entry_id : pyval) (kwargs data : gmap string pyval) :
  SpecSchemas.EditNokoEntryParameters kwargs = Ok data ->
  requests (@NokoClient.edit_entry bc (spec_schemas tag_filter_types) entry_id kwargs) =
    [ {| uri := "entries/" +:+ py_str entry_id; http := PUT; query_params := None;
         post_args := Some data |} ]
  ∧ (∀ k, kwargs !! k = None ∨ kwargs !! k = Some PyNone -> data !! k = None)
  ∧ (∀ k v, kwargs !! k = Some v -> v ≠ PyNone -> is_Some (data !! k)).
Proof.
  intros Hd. split; [|split].
  - unfold NokoClient.edit_entry. rewrite requests_lift_bind. simpl. now rewrite Hd.
  - intros k Hk. apply validate_fill in Hd as [Hd _].
    destruct (data !! k) as [w|] eqn:Hw; [|done].
    destruct (fill_supplied _ _ _ _ _ Hd Hw) as (_ & v & Hv & Hne).
    destruct Hk as [Hk|Hk]; rewrite Hk in Hv; congruence.
  - intros k v Hk Hv. apply validate_fill in Hd as [Hd Hknown].
    assert (k ∈ SpecSchemas.fname <$> SpecSchemas.entry_fields false) as Hin
      by (apply Hknown; eauto).
    apply list_elem_of_fmap in Hin as (f & -> & Hf).
    pose proof (fill_field _ _ _ _ (entry_fields_NoDup false) Hf Hd) as Hfield.
    rewrite Hk in Hfield. apply is_none_false in Hv. rewrite Hv in Hfield.
    destruct Hfield as (w & _ & ->). eauto.
Qed.

Lemma edit_entry_minutes_only :
  requests (@NokoClient.edit_entry one_record_transport (spec_schemas ["and"])
              (PyInt 42) {[ "minutes" := PyInt 90; "description" := PyNone ]}) =
    [ {| uri := "entries/42"; http := PUT; query_params := None;
         post_args := Some {[ "minutes" := PyInt 90 ]} |} ]
  ∧ (∀ k, ({[ "minutes" := PyInt 90; "description" := PyNone ]} : gmap string pyval) !! k = None
          ∨ ({[ "minutes" := PyInt 90; "description" := PyNone ]} : gmap string pyval) !! k
              = Some PyNone ->
          ({[ "minutes" := PyInt 90 ]} : gmap string pyval) !! k = None)
  ∧ (∀ k v, ({[ "minutes" := PyInt 90; "description" := PyNone ]} : gmap string pyval) !! k
              = Some v -> v ≠ PyNone ->
            is_Some (({[ "minutes" := PyInt 90 ]} : gmap string pyval) !! k)).
Proof.
  apply (edit_entry_omits_unset one_record_transport ["and"] (PyInt 42)
           {[ "minutes" := PyInt 90; "description" := PyNone ]}
           {[ "minutes" := PyInt 90 ]}).
  vm_compute. reflexivity.
Defined.




(** ** The approval timestamp *)

Section Approval.
Context `{BaseClient} `{Utilities}.
Variable now : datetime.

End Approval.



(** ** Dates and timestamps *)

Section DateFacts.
Import SpecUtilities.

Lemma digit_val_digit_char (d : Z) : digit_val (digit_char d) = Some (d mod 10).
Proof.
  unfold digit_char.
  assert (0 <= d mod 10 < 10) as Hr by (apply Z.mod_pos_bound; lia).
  set (k := d mod 10) in *.
  assert (k = 0 ∨ k = 1 ∨ k = 2 ∨ k = 3 ∨ k = 4 ∨ k = 5 ∨ k = 6 ∨ k = 7
          ∨ k = 8 ∨ k = 9) as Hk by lia.
  clearbody k.
  repeat (destruct Hk as [->|Hk]; [reflexivity|]). subst k. reflexivity.
Qed.

(** A digit character is the character of its value. *)
Lemma digit_val_inv (c : ascii) (k : Z) :
  digit_val c = Some k -> 0 <= k <= 9 ∧ c = digit_char k.
Proof.
  unfold digit_val, digit_char.
  destruct (_ && _)%bool eqn:Hb; [|discriminate]. intros [= <-].
  apply andb_prop in Hb as [H1%N.leb_le H2%N.leb_le].
  split; [lia|].
  rewrite Z.mod_small by lia.
  replace (48 + Z.to_N (Z.of_N (N_of_ascii c) - 48))%N with (N_of_ascii c) by lia.
  now rewrite ascii_N_embedding.
Qed.

Lemma digit_char_mod (a b : Z) : a mod 10 = b mod 10 -> digit_char a = digit_char b.
Proof. unfold digit_char. now intros ->. Qed.

Lemma digits_val_pad2 (n : Z) : 0 <= n <= 99 -> digits_val 0 (pad2 n) = Some n.
Proof.
  intros Hn. unfold pad2. simpl. rewrite !digit_val_digit_char. f_equal.
  Z.to_euclidean_division_equations. lia.
Qed.

Lemma digits_val_pad4 (n : Z) : 0 <= n <= 9999 -> digits_val 0 (pad4 n) = Some n.
Proof.
  intros Hn. unfold pad4, pad2. simpl. rewrite !digit_val_digit_char. f_equal.
  Z.to_euclidean_division_equations. lia.
Qed.

Lemma digits_val_str2_inv (a b : ascii) (n : Z) :
  digits_val 0 (str2 a b) = Some n -> 0 <= n <= 99 ∧ str2 a b = pad2 n.
Proof.
  unfold str2. simpl.
  destruct (digit_val a) as [x|] eqn:Ha; [|discriminate].
  destruct (digit_val b) as [y|] eqn:Hb; [|discriminate].
  intros [= <-].
  apply digit_val_inv in Ha as [Hx ->]. apply digit_val_inv in Hb as [Hy ->].
  split; [lia|]. unfold pad2.
  f_equal; [|f_equal]; apply digit_char_mod;
    Z.to_euclidean_division_equations; lia.
Qed.

Lemma digits_val_str4_inv (a b c d : ascii) (n : Z) :
  digits_val 0 (str4 a b c d) = Some n -> 0 <= n <= 9999 ∧ str4 a b c d = pad4 n.
Proof.
  unfold str4. simpl.
  destruct (digit_val a) as [x|] eqn:Ha; [|discriminate].
  destruct (digit_val b) as [y|] eqn:Hb; [|discriminate].
  destruct (digit_val c) as [z|] eqn:Hc; [|discriminate].
  destruct (digit_val d) as [w|] eqn:Hd; [|discriminate].
  intros [= <-].
  apply digit_val_inv in Ha as [Hx ->]. apply digit_val_inv in Hb as [Hy ->].
  apply digit_val_inv in Hc as [Hz ->]. apply digit_val_inv in Hd as [Hw ->].
  split; [lia|]. unfold pad4, pad2.
  f_equal; [|f_equal; [|f_equal; [|f_equal]]]; apply digit_char_mod;
    Z.to_euclidean_division_equations; lia.
Qed.

Lemma days_in_month_le (y m : Z) : days_in_month y m <= 31.
Proof.
  unfold days_in_month.
  repeat match goal with |- context [if ?b then _ else _] => destruct b end; lia.
Qed.

Lemma valid_date_bounds (d : date) :
  valid_date d = true ->
  1 <= year d <= 9999 ∧ 1 <= month d <= 12 ∧ 1 <= day d <= 31.
Proof.
  unfold valid_date. rewrite !andb_true_iff, !Z.leb_le.
  pose proof (days_in_month_le (year d) (month d)). lia.
Qed.

Lemma valid_datetime_bounds (dt : datetime) :
  valid_datetime dt = true ->
  valid_date (dt_date dt) = true
  ∧ 0 <= hour dt <= 23 ∧ 0 <= minute dt <= 59 ∧ 0 <= second dt <= 59.
Proof.
  unfold valid_datetime. rewrite !andb_true_iff, !Z.leb_le. tauto.
Qed.

(** Reading back the ISO string of a date gives the date. *)
Lemma parse_iso_date_iso_date (d : date) :
  valid_date d = true -> parse_iso_date (iso_date d) = Some d.
Proof.
  intros Hv. destruct (valid_date_bounds d Hv) as (Hy & Hm & Hd).
  destruct d as [y m dd]. cbn [year month day] in Hy, Hm, Hd.
  unfold iso_date, pad4, pad2. cbn [year month day String.append].
  unfold parse_iso_date.
  change (str4 _ _ _ _) with (pad4 y).
  change (str2 (digit_char (m / 10)) _) with (pad2 m).
  change (str2 (digit_char (dd / 10)) _) with (pad2 dd).
  rewrite digits_val_pad4, !digits_val_pad2 by lia.
  now rewrite Hv.
Qed.

(** An accepted date string is the ISO string of the date it denotes. *)
Lemma parse_iso_date_inv (s : string) (d : date) :
  parse_iso_date s = Some d -> valid_date d = true ∧ s = iso_date d.
Proof.
  unfold parse_iso_date.
  do 10 (destruct s as [|? s]; [discriminate|]).
  destruct s; [|discriminate].
  destruct (_ && _)%bool eqn:Hsep; [|discriminate].
  apply andb_prop in Hsep as [->%Ascii.eqb_eq ->%Ascii.eqb_eq].
  repeat case_match; try discriminate. subst.
  intros [= <-]. split; [assumption|].
  repeat match goal with
         | Hx : digits_val 0 (str4 _ _ _ _) = Some _ |- _ =>
             apply digits_val_str4_inv in Hx as [_ Hx]; injection Hx as -> -> -> ->
         | Hx : digits_val 0 (str2 _ _) = Some _ |- _ =>
             apply digits_val_str2_inv in Hx as [_ Hx]; injection Hx as -> ->
         end.
  reflexivity.
Qed.

(** Reading back the timestamp string of a datetime gives the datetime. *)
Lemma parse_iso_timestamp_iso_timestamp (dt : datetime) :
  valid_datetime dt = true -> parse_iso_timestamp (iso_timestamp dt) = Some dt.
Proof.
  intros Hv. destruct (valid_datetime_bounds dt Hv) as (Hd & Hh & Hm & Hs).
  pose proof (parse_iso_date_iso_date _ Hd) as Hpd.
  destruct dt as [d h mi se]. cbn [dt_date hour minute second] in *.
  unfold iso_date, pad4, pad2 in Hpd. cbn [String.append] in Hpd.
  unfold iso_timestamp, iso_time, iso_date, pad4, pad2.
  cbn [dt_date hour minute second String.append].
  unfold parse_iso_timestamp. cbn [Ascii.eqb Bool.eqb andb].
  rewrite Hpd.
  change (str2 (digit_char (h / 10)) _) with (pad2 h).
  change (str2 (digit_char (mi / 10)) _) with (pad2 mi).
  change (str2 (digit_char (se / 10)) _) with (pad2 se).
  rewrite !digits_val_pad2 by lia.
  now rewrite Hv.
Qed.

(** An accepted timestamp string is the timestamp string of the datetime
    it denotes. *)
Lemma parse_iso_timestamp_inv (s : string) (dt : datetime) :
  parse_iso_timestamp s = Some dt -> valid_datetime dt = true ∧ s = iso_timestamp dt.
Proof.
  unfold parse_iso_timestamp.
  do 20 (destruct s as [|? s]; [discriminate|]).
  destruct s; [|discriminate].
  destruct (_ && _)%bool eqn:Hsep; [|discriminate].
  apply andb_prop in Hsep as [Hsep ->%Ascii.eqb_eq].
  apply andb_prop in Hsep as [Hsep ->%Ascii.eqb_eq].
  apply andb_prop in Hsep as [->%Ascii.eqb_eq ->%Ascii.eqb_eq].
  destruct (parse_iso_date _) as [d|] eqn:Hd; [|discriminate].
  apply parse_iso_date_inv in Hd as [_ Hd].
  repeat case_match; try discriminate. subst.
  intros [= <-]. split; [assumption|].
  repeat match goal with
         | Hx : digits_val 0 (str2 _ _) = Some _ |- _ =>
             apply digits_val_str2_inv in Hx as [_ Hx]; injection Hx as -> ->
         end.
  unfold iso_timestamp. cbn [dt_date]. rewrite <- Hd. reflexivity.
Qed.

(** C4: a date object is normalised to its [YYYY-MM-DD] string and a
    datetime to its date string or, as a timestamp, to its
    [YYYY-MM-DDTHH:MM:SSZ] string; a string that already is such a string
    of a date (of a datetime) is returned unchanged, and these are the only
    strings accepted; a string that is the ISO string of no date (no
    datetime) fails validation. *)
Theorem date_normalisation (now : datetime) :
  (∀ d, valid_date d = true -> date_to_string (PyDate d) = Ok (iso_date d))
  ∧ (∀ dt, valid_datetime dt = true ->
       date_to_string (PyDatetime dt) = Ok (iso_date (dt_date dt))
       ∧ timestamp_to_string now (PyDatetime dt) = Ok (iso_timestamp dt))
  ∧ (∀ d, valid_date d = true ->
       date_to_string (PyStr (iso_date d)) = Ok (iso_date d))
  ∧ (∀ dt, valid_datetime dt = true ->
       timestamp_to_string now (PyStr (iso_timestamp dt)) = Ok (iso_timestamp dt))
  ∧ (∀ s r, date_to_string (PyStr s) = Ok r ->
       r = s ∧ ∃ d, valid_date d = true ∧ s = iso_date d)
  ∧ (∀ s r, timestamp_to_string now (PyStr s) = Ok r ->
       r = s ∧ ∃ dt, valid_datetime dt = true ∧ s = iso_timestamp dt)
  ∧ (∀ s, (∀ d, valid_date d = true -> s ≠ iso_date d) ->
       ∃ msg, date_to_string (PyStr s) = Raise (ValidationError "date" msg))
  ∧ (∀ s, (∀ dt, valid_datetime dt = true -> s ≠ iso_timestamp dt) ->
       ∃ msg, timestamp_to_string now (PyStr s)
              = Raise (ValidationError "timestamp" msg)).
Proof.
  repeat apply conj.
  - reflexivity.
  - intros dt _. split; reflexivity.
  - intros d Hv. unfold date_to_string. now rewrite parse_iso_date_iso_date.
  - intros dt Hv. unfold timestamp_to_string, timestamp_string.
    now rewrite parse_iso_timestamp_iso_timestamp.
  - intros s r. unfold date_to_string.
    destruct (parse_iso_date s) as [d|] eqn:Hd; [|discriminate].
    intros [= <-]. apply parse_iso_date_inv in Hd as [Hv ->]. eauto.
  - intros s r. unfold timestamp_to_string, timestamp_string.
    destruct (parse_iso_timestamp s) as [dt|] eqn:Hd; [|discriminate].
    intros [= <-]. apply parse_iso_timestamp_inv in Hd as [Hv ->]. eauto.
  - intros s Hs. unfold date_to_string.
    destruct (parse_iso_date s) as [d|] eqn:Hd; [|eauto].
    apply parse_iso_date_inv in Hd as [Hv ->]. now destruct (Hs d Hv).
  - intros s Hs. unfold timestamp_to_string, timestamp_string.
    destruct (parse_iso_timestamp s) as [dt|] eqn:Hd; [|eauto].
    apply parse_iso_timestamp_inv in Hd as [Hv ->]. now destruct (Hs dt Hv).
Qed.

Lemma not_an_iso_date (s : string) :
  parse_iso_date s = None -> ∀ d, valid_date d = true -> s ≠ iso_date d.
Proof. intros Hs d Hv ->. rewrite parse_iso_date_iso_date in Hs; congruence. Qed.

Lemma not_an_iso_timestamp (s : string) :
  parse_iso_timestamp s = None -> ∀ dt, valid_datetime dt = true -> s ≠ iso_timestamp dt.
Proof. intros Hs d Hv ->. rewrite parse_iso_timestamp_iso_timestamp in Hs; congruence. Qed.

Lemma date_normalisation_examples :
  date_to_string (PyDate {| year := 2024; month := 2; day := 29 |}) = Ok "2024-02-29"
  ∧ (date_to_string (PyDatetime noon_2024_03_09) = Ok "2024-03-09"
     ∧ timestamp_to_string noon_2024_03_09 (PyDatetime noon_2024_03_09)
       = Ok "2024-03-09T12:00:00Z")
  ∧ date_to_string (PyStr "2024-02-29") = Ok "2024-02-29"
  ∧ timestamp_to_string noon_2024_03_09 (PyStr "2024-03-09T12:00:00Z")
    = Ok "2024-03-09T12:00:00Z"
  ∧ (∃ msg, date_to_string (PyStr "2023-02-29") = Raise (ValidationError "date" msg))
  ∧ (∃ msg, timestamp_to_string noon_2024_03_09 (PyStr "2024-03-09 12:00:00")
            = Raise (ValidationError "timestamp" msg)).
Proof.
  destruct (date_normalisation noon_2024_03_09)
    as (H1 & H2 & H3 & H4 & _ & _ & H5 & H6).
  split; [|split; [|split; [|split; [|split]]]].
  - apply (H1 {| year := 2024; month := 2; day := 29 |}). reflexivity.
  - apply (H2 noon_2024_03_09). reflexivity.
  - apply (H3 {| year := 2024; month := 2; day := 29 |}). reflexivity.
  - apply (H4 noon_2024_03_09). reflexivity.
  - apply (H5 "2023-02-29"). apply not_an_iso_date. reflexivity.
  - apply (H6 "2024-03-09 12:00:00"). apply not_an_iso_timestamp. reflexivity.
Defined.

End DateFacts.

(** ** ID lists *)

Section IdListFacts.
Import SpecUtilities.

Lemma int_of_str_str_of_Z (z : Z) : int_of_str (str_of_Z z) = Some z.
Proof.
  unfold int_of_str, str_of_Z.
  rewrite NilZero.isi.
  - simpl. now rewrite DecimalZ.of_to.
  - destruct z; simpl; try discriminate.
    intros [= E]. now apply DecimalPos.Unsigned.to_uint_nonnil in E.
  - destruct z; simpl; try discriminate.
    intros [= E]. now apply DecimalPos.Unsigned.to_uint_nonnil in E.
Qed.

Lemma uint_of_string_no_comma (s : string) d :
  NilEmpty.uint_of_string s = Some d -> has_char "," s = false.
Proof.
  revert d. induction s as [|a s IH]; simpl; intros d Hd; [reflexivity|].
  destruct (NilEmpty.uint_of_string s) as [d'|] eqn:Hs; [|discriminate].
  rewrite (IH d' eq_refl), orb_false_r.
  apply uint_of_char_spec in Hd.
  repeat (destruct Hd as [[-> _]|Hd]; [reflexivity|]).
  now destruct Hd as [-> _].
Qed.

(** A numeric string has no comma. *)
Lemma int_of_str_no_comma (s : string) (z : Z) :
  int_of_str s = Some z -> has_char "," s = false.
Proof.
  unfold int_of_str. destruct (NilZero.int_of_string s) as [d|] eqn:Hd; [|discriminate].
  intros _. destruct s as [|a s]; [reflexivity|]. simpl in Hd.
  destruct (Ascii.eqb_spec a "-") as [->|Hne].
  - destruct (NilZero.uint_of_string s) as [u|] eqn:Hu; [|discriminate].
    destruct s as [|b s]; [discriminate|].
    change (has_char "," (String "-" (String b s)))
      with (has_char "," (String b s)).
    now apply (uint_of_string_no_comma _ u).
  - destruct (uint_of_char a _) as [u|] eqn:Hu; [|discriminate].
    now apply (uint_of_string_no_comma (String a s) u).
Qed.

Lemma split_commas_app (cur s t : string) :
  has_char "," s = false ->
  split_commas cur (s +:+ t) = split_commas (cur +:+ s) t.
Proof.
  revert cur. induction s as [|c s IH]; simpl; intros cur Hs.
  - now rewrite string_app_nil_r.
  - apply orb_false_elim in Hs as [Hc Hs]. rewrite Hc, (IH _ Hs).
    now rewrite string_app_assoc.
Qed.

Lemma split_commas_comma (cur t : string) :
  split_commas cur (String "," t) = cur :: split_commas "" t.
Proof. reflexivity. Qed.

(** Splitting a comma-joined list of comma-free pieces gives the pieces. *)
Lemma split_commas_join (ss : list string) :
  ss ≠ [] -> Forall (λ s, has_char "," s = false) ss ->
  split_commas "" (join "," ss) = ss.
Proof.
  induction ss as [|x [|y xs] IH]; intros Hne Hall; [done| |].
  - simpl. apply Forall_cons in Hall as [Hx _].
    rewrite <- (string_app_nil_r x) at 1.
    now rewrite (split_commas_app "" x "" Hx).
  - apply Forall_cons in Hall as [Hx Hall].
    change (join "," (x :: y :: xs)) with (x +:+ String "," (join "," (y :: xs))).
    rewrite (split_commas_app "" x _ Hx).
    change (String.append "" x) with x.
    rewrite split_commas_comma. now rewrite IH.
Qed.

(** C3: a list of integers and numeric strings, a comma-separated string
    of numeric pieces, and a single integer are each normalised to the
    integers they denote, position by position: as an array for a JSON body
    and as the comma-joined decimal string for a query parameter; the
    decimal string of an integer is a numeric string, so the canonical
    string is normalised to itself; and [delete_tags] puts the array under
    [tag_ids] in the body of its DELETE to [tags/delete]. *)
Theorem id_list_normalisation :
  (∀ l zs, Forall2 (λ v z, to_int v = Some z) l zs ->
     list_to_list_of_integers (PyList l) = Ok zs
     ∧ list_to_string (PyList l) = Ok (join "," (str_of_Z <$> zs)))
  ∧ (∀ ss zs, ss ≠ [] -> Forall2 (λ s z, int_of_str s = Some z) ss zs ->
       list_to_list_of_integers (PyStr (join "," ss)) = Ok zs
       ∧ list_to_string (PyStr (join "," ss)) = Ok (join "," (str_of_Z <$> zs)))
  ∧ (∀ z, list_to_list_of_integers (PyInt z) = Ok [z]
          ∧ list_to_string (PyInt z) = Ok (str_of_Z z))
  ∧ (∀ z, to_int (PyInt z) = Some z ∧ to_int (PyStr (str_of_Z z)) = Some z)
  ∧ (∀ zs, zs ≠ [] ->
       list_to_string (PyStr (join "," (str_of_Z <$> zs)))
       = Ok (join "," (str_of_Z <$> zs)))
  ∧ (∀ (bc : BaseClient) tag_ids zs,
       list_to_list_of_integers tag_ids = Ok zs ->
       requests (@NokoClient.delete_tags bc spec_utilities tag_ids) =
         [ {| uri := "tags/delete"; http := DELETE; query_params := None;
              post_args := Some {[ "tag_ids" := int_list zs ]} |} ]).
Proof.
  assert (Hstr : ∀ ss zs, ss ≠ [] -> Forall2 (λ s z, int_of_str s = Some z) ss zs ->
            ids_of (PyStr (join "," ss)) = Some zs).
  { intros ss zs Hne Hall. unfold ids_of.
    rewrite split_commas_join; [now apply mapM_Some_2|exact Hne|].
    clear Hne. induction Hall as [|s z ss zs Hz _ IH]; constructor; [|exact IH].
    now apply (int_of_str_no_comma s z). }
  repeat apply conj.
  - intros l zs Hall. apply mapM_Some_2 in Hall.
    unfold list_to_list_of_integers, list_to_string, ids_of. now rewrite Hall.
  - intros ss zs Hne Hall.
    unfold list_to_list_of_integers, list_to_string.
    now rewrite (Hstr ss zs Hne Hall).
  - intros z. split; reflexivity.
  - intros z. split; [reflexivity|]. apply int_of_str_str_of_Z.
  - intros zs Hne. unfold list_to_string.
    rewrite (Hstr (str_of_Z <$> zs) zs); [done| |].
    + now destruct zs.
    + apply Forall2_fmap_l, Forall_Forall2_diag, Forall_forall.
      intros z _. apply int_of_str_str_of_Z.
  - intros bc tag_ids zs Hz. unfold NokoClient.delete_tags.
    rewrite requests_lift_bind. simpl. rewrite Hz.
    unfold fetch_json, bind, ret, requests. simpl.
    now destruct (transport _).
Qed.

Lemma id_list_examples :
  (list_to_list_of_integers (PyList [PyInt 5; PyInt 6; PyStr "7"]) = Ok [5; 6; 7]
   ∧ list_to_string (PyList [PyInt 5; PyInt 6; PyStr "7"]) = Ok "5,6,7")
  ∧ (list_to_list_of_integers (PyStr "5,06,-7") = Ok [5; 6; -7]
     ∧ list_to_string (PyStr "5,06,-7") = Ok "5,6,-7")
  ∧ list_to_string (PyStr "5,6,7") = Ok "5,6,7".
Proof.
  destruct id_list_normalisation as (Hlist & Hstr & _ & _ & Hcanon & _).
  split; [|split].
  - apply (Hlist [PyInt 5; PyInt 6; PyStr "7"] [5; 6; 7]).
    repeat constructor.
  - apply (Hstr ["5"; "06"; "-7"] [5; 6; -7]); [discriminate|].
    repeat constructor.
  - apply (Hcanon [5; 6; 7]). discriminate.
Defined.

End IdListFacts.

(** The query-parameter form in a whole call: a mixed ID list becomes the
    comma-joined string. *)
Example list_entries_user_ids :
  requests (@NokoClient.list_entries one_record_transport (spec_schemas ["and"])
              {[ "user_ids" := PyList [PyInt 1; PyStr "2"];
                 "billable" := PyBool false ]}) =
    [ {| uri := "entries"; http := GET;
         query_params := Some {[ "user_ids" := PyStr "1,2";
                                 "billable" := PyStr "false" ]};
         post_args := None |} ].
Proof. vm_compute. reflexivity. Qed.

(** ** The whole client: one request per call *)

Section WholeClient.
Context `{BaseClient} `{Utilities} `{Schemas}.
Variable now : datetime.

Import NokoClient.

Lemma fetch_alone (u : string) (v : http_method)
    (q b : option (gmap string pyval)) :
  fetch_json u v q b =
    ([ {| uri := u; http := v; query_params := q; post_args := b |} ],
     transport {| uri := u; http := v; query_params := q; post_args := b |}).
Proof. reflexivity. Qed.

Lemma fetch_bind_none (u : string) (v : http_method)
    (q b : option (gmap string pyval)) :
  bind (fetch_json u v q b) (fun _ => ret JNull) =
    ([ {| uri := u; http := v; query_params := q; post_args := b |} ],
     match transport {| uri := u; http := v; query_params := q; post_args := b |} with
     | Ok _ => Ok JNull
     | Raise e => Raise e
     end).
Proof. unfold fetch_json, bind, ret. now destruct (transport _). Qed.

Ltac shape :=
  unfold shape_ok; simpl;
  repeat split; intros; try done;
  repeat match goal with
         | Hx : is_Some None |- _ => now destruct Hx
         | Hx : _ ∨ _ |- _ => destruct Hx
         end;
  try discriminate; eauto.

(** Every call either raises before sending, or sends one request and ends
    with the transport's answer or, for the [-> None] methods, with [None]
    in place of the answer. *)
Lemma client_call_normal (m : io json) :
  client_call now m ->
  (∃ e, m = ([], Raise e))
  ∨ (∃ r, shape_ok r
       ∧ (m = ([r], transport r)
          ∨ m = ([r], match transport r with Ok _ => Ok JNull | Raise e => Raise e end))).
Proof.
  destruct 1;
    unfold list_entries, get_single_entry, create_entry, edit_entry,
      mark_as_invoiced, mark_as_approved, mark_as_unapproved, delete_entry,
      list_tags, create_tags, get_single_tag, get_all_entries_for_tag,
      edit_tag, merge_tag_into_this_tag, delete_single_tag, delete_tags;
    rewrite ?requests_lift_bind;
    repeat match goal with
           | |- context [match ?x with Ok _ => _ | Raise _ => _ end] =>
               destruct x; rewrite ?requests_lift_bind
           | |- context [if ?b then _ else _] => destruct b
           end;
    rewrite ?bind_ret_l, ?fetch_bind_none, ?fetch_alone;
    first [ left; eexists; reflexivity
          | right; eexists; split; [|left; reflexivity]; shape
          | right; eexists; split; [|right; reflexivity]; shape ].
Qed.

Lemma returns_response_normal (m : io json) :
  returns_response m ->
  (∃ e, m = ([], Raise e)) ∨ (∃ r, m = ([r], transport r)).
Proof.
  destruct 1;
    unfold list_entries, get_single_entry, create_entry, edit_entry,
      list_tags, create_tags, get_single_tag, get_all_entries_for_tag, edit_tag;
    rewrite ?requests_lift_bind;
    repeat match goal with
           | |- context [match ?x with Ok _ => _ | Raise _ => _ end] =>
               destruct x
           end;
    rewrite ?fetch_alone; eauto.
Qed.

(** X1: no call hands the transport more than one request. *)
Theorem at_most_one_request (m : io json) :
  client_call now m -> (length (requests m) <= 1)%nat.
Proof.
  intros Hm. destruct (client_call_normal m Hm) as [[e ->] | (r & _ & [-> | ->])];
    simpl; lia.
Qed.

(** X2: when the transport raises on the request a call sent, the call
    raises that same error: nothing is retried or caught. *)
Theorem transport_error_propagates (m : io json) (r : request) (e : exn) :
  client_call now m -> r ∈ requests m -> transport r = Raise e ->
  outcome m = Raise e ∧ requests m = [r].
Proof.
  intros Hm Hr He.
  destruct (client_call_normal m Hm) as [[e' ->] | (r' & _ & [-> | ->])];
    unfold requests, outcome in *; simpl in *.
  - now apply elem_of_nil in Hr.
  - apply list_elem_of_singleton in Hr as <-. now rewrite He.
  - apply list_elem_of_singleton in Hr as <-. now rewrite He.
Qed.

(** X3: a call of a method that returns [self.fetch_json(...)] returns
    exactly the parsed JSON the transport answered with. *)
Theorem returning_calls_pass_response (m : io json) (r : request) (j : json) :
  returns_response m -> r ∈ requests m -> transport r = Ok j ->
  outcome m = Ok j.
Proof.
  intros Hm Hr Hj.
  destruct (returns_response_normal m Hm) as [[e ->] | (r' & ->)];
    unfold requests, outcome in *; simpl in *.
  - now apply elem_of_nil in Hr.
  - apply list_elem_of_singleton in Hr as <-. exact Hj.
Qed.

(** X4: a call that returns a value has sent exactly one request, and the
    transport answered it; no method returns without contacting the
    service. *)
Theorem success_needs_answered_request (m : io json) (v : json) :
  client_call now m -> outcome m = Ok v ->
  ∃ r j, requests m = [r] ∧ transport r = Ok j.
Proof.
  intros Hm Hv.
  destruct (client_call_normal m Hm) as [[e ->] | (r & _ & [-> | ->])];
    unfold requests, outcome in *; simpl in *.
  - discriminate.
  - eauto.
  - destruct (transport r) as [j|e] eqn:Hr; [eauto | discriminate].
Qed.

(** X5: in every request any method sends, query parameters come only with
    GET, a GET has no body, and a POST or PUT has one. *)
Theorem request_shape (m : io json) (r : request) :
  client_call now m -> r ∈ requests m ->
  (is_Some (query_params r) -> http r = GET)
  ∧ (http r = GET -> post_args r = None)
  ∧ (http r = POST ∨ http r = PUT -> is_Some (post_args r)).
Proof.
  intros Hm Hr.
  destruct (client_call_normal m Hm) as [[e ->] | (r' & Hs & [-> | ->])];
    unfold requests in Hr; simpl in Hr.
  - now apply elem_of_nil in Hr.
  - apply list_elem_of_singleton in Hr as ->. exact Hs.
  - apply list_elem_of_singleton in Hr as ->. exact Hs.
Qed.

(** X7: for the same keyword arguments, [get_all_entries_for_tag] sends
    what [list_entries] sends, with [tags/{tag_id}/entries] as the URI, and
    ends the same way when nothing is sent. *)
Theorem tag_entries_filter_like_entries (tag_id : pyval) (kwargs : gmap string pyval) :
  requests (get_all_entries_for_tag tag_id kwargs) =
    (λ r, {| uri := "tags/" +:+ py_str tag_id +:+ "/entries"; http := http r;
             query_params := query_params r; post_args := post_args r |})
      <$> requests (list_entries kwargs)
  ∧ (requests (list_entries kwargs) = [] ->
     outcome (get_all_entries_for_tag tag_id kwargs) = outcome (list_entries kwargs)).
Proof.
  unfold get_all_entries_for_tag, list_entries. rewrite !requests_lift_bind.
  destruct (GetNokoEntriesParameters kwargs) as [params|e]; [|done].
  rewrite !fetch_alone. split; [reflexivity|]. unfold requests. simpl. discriminate.
Qed.

(** X9: a request of [mark_as_unapproved] carries an empty JSON object when
    [entry_ids] is not a list, and an object whose only field is
    [entry_ids] when it is. *)
Theorem unapproved_body (entry_ids : pyval) (r : request) :
  r ∈ requests (mark_as_unapproved entry_ids) ->
  ∃ body, post_args r = Some body
    ∧ (is_list entry_ids = false -> body = ∅)
    ∧ (is_list entry_ids = true ->
       ∃ zs, list_to_list_of_integers entry_ids = Ok zs
             ∧ body = {[ "entry_ids" := int_list zs ]}).
Proof.
  unfold mark_as_unapproved.
  destruct (is_list entry_ids) eqn:Hl.
  - rewrite requests_lift_bind.
    destruct (list_to_list_of_integers entry_ids) as [zs|e] eqn:Hz.
    + rewrite bind_ret_l, fetch_bind_none. unfold requests. simpl.
      intros ->%list_elem_of_singleton. simpl. eexists. split; [reflexivity|].
      split; [discriminate|]. intros _. exists zs. split; [reflexivity|].
      apply insert_empty.
    + unfold requests. simpl. now intros ?%elem_of_nil.
  - rewrite bind_ret_l, fetch_bind_none. unfold requests. simpl.
    intros ->%list_elem_of_singleton. simpl. eexists. split; [reflexivity|].
    split; [done|discriminate].
Qed.

(** X11: reading, editing and deleting one record address the same URI and
    differ by verb, for entries and for tags. *)
Theorem record_uri_shared (id name : pyval) (kwargs : gmap string pyval)
    (r1 r2 r3 r4 r5 r6 : request) :
  r1 ∈ requests (get_single_entry id) ->
  r2 ∈ requests (edit_entry id kwargs) ->
  r3 ∈ requests (delete_entry id) ->
  r4 ∈ requests (get_single_tag id) ->
  r5 ∈ requests (edit_tag id name) ->
  r6 ∈ requests (delete_single_tag id) ->
  (uri r1 = uri r2 ∧ uri r2 = uri r3
   ∧ http r1 = GET ∧ http r2 = PUT ∧ http r3 = DELETE)
  ∧ (uri r4 = uri r5 ∧ uri r5 = uri r6
     ∧ http r4 = GET ∧ http r5 = PUT ∧ http r6 = DELETE).
Proof.
  unfold get_single_entry, edit_entry, delete_entry, get_single_tag, edit_tag,
    delete_single_tag.
  rewrite requests_lift_bind, ?fetch_bind_none, ?fetch_alone.
  destruct (EditNokoEntryParameters kwargs) as [data|e];
    rewrite ?fetch_alone; unfold requests; simpl.
  - intros ->%list_elem_of_singleton ->%list_elem_of_singleton
      ->%list_elem_of_singleton ->%list_elem_of_singleton
      ->%list_elem_of_singleton ->%list_elem_of_singleton.
    simpl. repeat split.
  - intros _ ?%elem_of_nil. done.
Qed.

End WholeClient.

(** ** Record IDs in URIs *)

Lemma string_app_inv_head (s t1 t2 : string) : s +:+ t1 = s +:+ t2 -> t1 = t2.
Proof. induction s as [|c s IH]; simpl; [done|]. intros [= E]. now apply IH. Qed.

Lemma string_app_inv_tail (s1 s2 t : string) : s1 +:+ t = s2 +:+ t -> s1 = s2.
Proof.
  revert s2. induction s1 as [|c s1 IH]; intros [|c' s2]; simpl; intros E.
  - reflexivity.
  - apply (f_equal String.length) in E. simpl in E.
    rewrite string_length_app in E. lia.
  - apply (f_equal String.length) in E. simpl in E.
    rewrite string_length_app in E. lia.
  - injection E as -> E. f_equal. now apply IH.
Qed.

Lemma to_int_not_nil (z : Z) : Z.to_int z ≠ Decimal.Pos Decimal.Nil
                               ∧ Z.to_int z ≠ Decimal.Neg Decimal.Nil.
Proof.
  destruct z; simpl; split; try discriminate;
    intros [= E]; now apply DecimalPos.Unsigned.to_uint_nonnil in E.
Qed.

(** Distinct integers have distinct decimal strings. *)
Lemma str_of_Z_inj (z1 z2 : Z) : str_of_Z z1 = str_of_Z z2 -> z1 = z2.
Proof.
  unfold str_of_Z. intros E. apply (f_equal NilZero.int_of_string) in E.
  destruct (to_int_not_nil z1), (to_int_not_nil z2).
  rewrite !NilZero.isi in E by assumption.
  injection E as E. now apply DecimalZ.to_int_inj.
Qed.

Section RecordIds.
Context `{BaseClient} `{Utilities}.

Import NokoClient.

(** X10: a method that addresses one record sends different integer IDs to
    different URIs: equal requests mean equal IDs. *)
Theorem integer_ids_address_distinct_records (f : pyval -> io json) (z1 z2 : Z) :
  record_method f ->
  requests (f (PyInt z1)) = requests (f (PyInt z2)) -> z1 = z2.
Proof.
  destruct 1;
    unfold get_single_entry, delete_entry, get_single_tag, edit_tag,
      merge_tag_into_this_tag, delete_single_tag, mark_as_unapproved;
    simpl is_list; cbv iota;
    rewrite ?bind_ret_l, ?fetch_bind_none, ?fetch_alone;
    unfold requests; simpl fst; intros [= E];
    repeat first [ apply string_app_inv_head in E
                 | apply string_app_inv_tail in E ];
    now apply str_of_Z_inj.
Qed.

End RecordIds.

(** X8: when [entry_ids] is not a list, the three status changes never
    call [list_to_list_of_integers]: two sets of helpers that agree on the
    date (timestamp) give the same call, whatever their integer normalisers
    do. *)
Theorem non_list_ids_skip_normaliser (bc : BaseClient) (U1 U2 : Utilities)
    (now : datetime) (entry_ids v : pyval) :
  is_list entry_ids = false ->
  (@date_to_string U1 v = @date_to_string U2 v ->
   @NokoClient.mark_as_invoiced bc U1 entry_ids v
   = @NokoClient.mark_as_invoiced bc U2 entry_ids v)
  ∧ (@timestamp_to_string U1 now v = @timestamp_to_string U2 now v ->
     @NokoClient.mark_as_approved bc U1 now entry_ids v
     = @NokoClient.mark_as_approved bc U2 now entry_ids v)
  ∧ @NokoClient.mark_as_unapproved bc U1 entry_ids
    = @NokoClient.mark_as_unapproved bc U2 entry_ids.
Proof.
  intros Hl. split; [|split].
  - intros Hd. unfold NokoClient.mark_as_invoiced.
    rewrite !requests_lift_bind, Hd, Hl. reflexivity.
  - intros Hd. unfold NokoClient.mark_as_approved.
    rewrite !requests_lift_bind, Hd, Hl. reflexivity.
  - unfold NokoClient.mark_as_unapproved. rewrite Hl. reflexivity.
Qed.

(** Worked instances of the whole-client theorems. *)

Lemma delete_tags_sends_at_most_once :
  (length (requests (@NokoClient.delete_tags one_record_transport spec_utilities
                       (PyList [PyInt 1; PyStr "2"]))) <= 1)%nat.
Proof.
  apply (@at_most_one_request one_record_transport spec_utilities
           (spec_schemas ["and"]) noon_2024_03_09).
  apply NokoClient.cc_delete_tags.
Defined.

Lemma list_tags_transport_down :
  outcome (@NokoClient.list_tags failing_transport (spec_schemas ["and"]) ∅)
    = Raise (TransportError "503")
  ∧ requests (@NokoClient.list_tags failing_transport (spec_schemas ["and"]) ∅)
    = [ {| uri := "tags"; http := GET; query_params := Some ∅; post_args := None |} ].
Proof.
  apply (@transport_error_propagates failing_transport spec_utilities
           (spec_schemas ["and"]) noon_2024_03_09).
  - apply NokoClient.cc_list_tags.
  - vm_compute. constructor.
  - reflexivity.
Defined.

Lemma get_single_entry_returns_the_record :
  outcome (@NokoClient.get_single_entry one_record_transport (PyInt 5))
    = Ok (JArr [JObj [("id", JNum 5)]]).
Proof.
  apply (@returning_calls_pass_response one_record_transport
           (spec_schemas ["and"]) _
           {| uri := "entries/5"; http := GET; query_params := None;
              post_args := None |}).
  - apply NokoClient.rr_get_single_entry.
  - vm_compute. constructor.
  - reflexivity.
Defined.

Lemma create_tags_success_was_answered :
  ∃ r j, requests (@NokoClient.create_tags one_record_transport
                     (PyList [PyStr "urgent"])) = [r]
         ∧ @transport one_record_transport r = Ok j.
Proof.
  apply (@success_needs_answered_request one_record_transport spec_utilities
           (spec_schemas ["and"]) noon_2024_03_09 _ (JArr [JObj [("id", JNum 5)]])).
  - apply NokoClient.cc_create_tags.
  - reflexivity.
Defined.

Lemma edit_tag_request_shape :
  let r := {| uri := "tags/7"; http := PUT; query_params := None;
              post_args := Some {[ "name" := PyStr "ops*" ]} |} in
  (is_Some (query_params r) -> http r = GET)
  ∧ (http r = GET -> post_args r = None)
  ∧ (http r = POST ∨ http r = PUT -> is_Some (post_args r)).
Proof.
  intros r.
  apply (@request_shape one_record_transport spec_utilities
           (spec_schemas ["and"]) noon_2024_03_09
           (@NokoClient.edit_tag one_record_transport (PyInt 7) (PyStr "ops*")) r).
  - apply NokoClient.cc_edit_tag.
  - vm_compute. constructor.
Defined.

Lemma tag_entries_rejects_like_entries :
  outcome (@NokoClient.get_all_entries_for_tag one_record_transport
             (spec_schemas ["and"]) (PyInt 3) {[ "colour" := PyStr "red" ]})
  = outcome (@NokoClient.list_entries one_record_transport (spec_schemas ["and"])
               {[ "colour" := PyStr "red" ]}).
Proof.
  apply (proj2 (@tag_entries_filter_like_entries one_record_transport
                  (spec_schemas ["and"]) (PyInt 3) {[ "colour" := PyStr "red" ]})).
  vm_compute. reflexivity.
Defined.

Lemma unapproved_single_body_is_empty :
  ∃ body, Some (∅ : gmap string pyval) = Some body
    ∧ (is_list (PyInt 7) = false -> body = ∅)
    ∧ (is_list (PyInt 7) = true ->
       ∃ zs, SpecUtilities.list_to_list_of_integers (PyInt 7) = Ok zs
             ∧ body = {[ "entry_ids" := int_list zs ]}).
Proof.
  apply (@unapproved_body one_record_transport spec_utilities (PyInt 7)
           {| uri := "entries/7/unapproved"; http := PUT; query_params := None;
              post_args := Some ∅ |}).
  vm_compute. constructor.
Defined.

Lemma entry_42_uri_shared :
  ("entries/42" = "entries/42" ∧ "entries/42" = "entries/42"
   ∧ GET = GET ∧ PUT = PUT ∧ DELETE = DELETE)
  ∧ ("tags/42" = "tags/42" ∧ "tags/42" = "tags/42"
     ∧ GET = GET ∧ PUT = PUT ∧ DELETE = DELETE).
Proof.
  apply (@record_uri_shared one_record_transport (spec_schemas ["and"])
           (PyInt 42) (PyStr "ops") {[ "minutes" := PyInt 90 ]}
           {| uri := "entries/42"; http := GET; query_params := None; post_args := None |}
           {| uri := "entries/42"; http := PUT; query_params := None;
              post_args := Some {[ "minutes" := PyInt 90 ]} |}
           {| uri := "entries/42"; http := DELETE; query_params := None; post_args := None |}
           {| uri := "tags/42"; http := GET; query_params := None; post_args := None |}
           {| uri := "tags/42"; http := PUT; query_params := None;
              post_args := Some {[ "name" := PyStr "ops" ]} |}
           {| uri := "tags/42"; http := DELETE; query_params := None; post_args := None |});
    vm_compute; constructor.
Defined.

Lemma same_request_same_tag :
  (12 : Z) = 12.
Proof.
  apply (@integer_ids_address_distinct_records one_record_transport spec_utilities
           (@NokoClient.get_single_tag one_record_transport) 12 12).
  - apply NokoClient.rm_get_single_tag.
  - reflexivity.
Defined.

Lemma comma_string_skips_normaliser :
  @NokoClient.mark_as_invoiced one_record_transport spec_utilities
     (PyStr "5,6") (PyStr "2024-01-01")
  = @NokoClient.mark_as_invoiced one_record_transport no_ids_utilities
      (PyStr "5,6") (PyStr "2024-01-01").
Proof.
  apply (proj1 (non_list_ids_skip_normaliser one_record_transport spec_utilities
                  no_ids_utilities noon_2024_03_09 (PyStr "5,6") (PyStr "2024-01-01")
                  eq_refl)).
  reflexivity.
Defined.
